(** * ai-social-platform: the orchestration layer, embedded and verified

    A shallow embedding of the Python sources under [app/]:
    - [app/services/openai_service.py]  (the LLM gateway),
    - [app/agents/platform_agents/*.py] (the five platform generators),
    - [app/agents/post_creator.py]      (the fan-out coordinator),
    - [app/agents/super_agent.py]       (history retrieval, the dialog router),
    - [app/config.py], [app/telegram/bot.py] (allow-list authorization, the
      store helpers and the handlers).

    Conventions.  A Python [str] is the [string] of its UTF-8 bytes.  [len]
    and slicing count characters, that is code points ([Py.len],
    [Py.slice_to]): a character is a byte that is not a UTF-8 continuation
    byte, together with the continuation bytes after it.  The other
    built-ins ([lower], [strip], [title], [int]) are modelled on ASCII text;
    comparison, search, splitting at "," and concatenation are byte-wise,
    which is exact on UTF-8.
    A Python [int] is a [Z], a [float] a [Q] (only its truth value is used).
    A call that may raise returns a [result]; [async]/[await] is sequential
    composition, and [asyncio.gather] with [return_exceptions=True] yields the
    list of outcomes of its tasks in task order.  Logging is not modelled. *)

From Stdlib Require Import String Ascii List Sorted Permutation ZArith QArith Bool Arith Lia.
Import ListNotations.
Close Scope Q_scope.
Open Scope string_scope.

(** ** Python built-ins used by the sources *)

Module Py.

Definition nl : string := String (ascii_of_nat 10) EmptyString.
Definition dq : string := String (ascii_of_nat 34) EmptyString.

(** [str.isspace] on one ASCII character: TAB, LF, VT, FF, CR, the four
    separators FS, GS, RS, US, and the space. *)
Definition is_space (c : ascii) : bool :=
  let n := nat_of_ascii c in
  (((9 <=? n) && (n <=? 13)) || ((28 <=? n) && (n <=? 32)))%nat.

Definition is_upper (c : ascii) : bool :=
  let n := nat_of_ascii c in ((65 <=? n) && (n <=? 90))%nat.

Definition is_lower (c : ascii) : bool :=
  let n := nat_of_ascii c in ((97 <=? n) && (n <=? 122))%nat.

Definition to_lower (c : ascii) : ascii :=
  if is_upper c then ascii_of_nat (nat_of_ascii c + 32) else c.

Definition to_upper (c : ascii) : ascii :=
  if is_lower c then ascii_of_nat (nat_of_ascii c - 32) else c.

(** [s.lower()] *)
Fixpoint lower (s : string) : string :=
  match s with
  | EmptyString => EmptyString
  | String c s' => String (to_lower c) (lower s')
  end.

(** [s.title()]: a cased character is upper-cased when the character before
    it is not cased, and lower-cased otherwise. *)
Fixpoint title_from (previous_is_cased : bool) (s : string) : string :=
  match s with
  | EmptyString => EmptyString
  | String c s' =>
      if is_upper c || is_lower c
      then String (if previous_is_cased then to_lower c else to_upper c)
                  (title_from true s')
      else String c (title_from false s')
  end.

Definition title (s : string) : string := title_from false s.

Fixpoint lstrip (s : string) : string :=
  match s with
  | EmptyString => EmptyString
  | String c s' => if is_space c then lstrip s' else s
  end.

Fixpoint rev_onto (s acc : string) : string :=
  match s with
  | EmptyString => acc
  | String c s' => rev_onto s' (String c acc)
  end.

Definition reverse (s : string) : string := rev_onto s EmptyString.

Definition rstrip (s : string) : string := reverse (lstrip (reverse s)).

(** [s.strip()] *)
Definition strip (s : string) : string := rstrip (lstrip s).

(** [s.split(sep)] for a one-character separator: never the empty list. *)
Fixpoint split (sep : ascii) (s : string) : list string :=
  match s with
  | EmptyString => [EmptyString]
  | String c s' =>
      if Ascii.eqb c sep then EmptyString :: split sep s'
      else match split sep s' with
           | [] => [String c EmptyString]
           | t :: ts => String c t :: ts
           end
  end.

(** [sep.join(parts)] *)
Definition join (sep : string) (parts : list string) : string :=
  String.concat sep parts.

(** [s.startswith(p)] *)
Fixpoint startswith (p s : string) : bool :=
  match p, s with
  | EmptyString, _ => true
  | String a p', String b s' => Ascii.eqb a b && startswith p' s'
  | String _ _, EmptyString => false
  end.

(** [needle in hay] on strings *)
Fixpoint str_in (needle hay : string) : bool :=
  startswith needle hay ||
  match hay with
  | EmptyString => false
  | String _ hay' => str_in needle hay'
  end.

(** A UTF-8 continuation byte, [10xxxxxx]: it carries on the character the
    byte before it belongs to. *)
Definition is_continuation (c : ascii) : bool :=
  let n := nat_of_ascii c in ((128 <=? n) && (n <=? 191))%nat.

(** [len(s)]: the number of characters (code points) of [s]. *)
Fixpoint len (s : string) : nat :=
  match s with
  | EmptyString => O
  | String c s' => if is_continuation c then len s' else S (len s')
  end.

(** [s[:n]] for [n >= 0]: the first [n] characters of [s], each with all
    its bytes. *)
Fixpoint slice_to (n : nat) (s : string) : string :=
  match s with
  | EmptyString => EmptyString
  | String c s' =>
      if is_continuation c then String c (slice_to n s')
      else match n with
           | O => EmptyString
           | S n' => String c (slice_to n' s')
           end
  end.

(** [l[-n:]] for [n > 0]: the last [n] elements, all of [l] when shorter. *)
Definition last_n {A} (n : nat) (l : list A) : list A :=
  skipn (length l - n) l.

(** [x in l] on a list of strings *)
Definition str_mem (x : string) (l : list string) : bool :=
  existsb (String.eqb x) l.

(** [x in l] on a list of integers *)
Definition int_mem (x : Z) (l : list Z) : bool :=
  existsb (Z.eqb x) l.

(** [int(s)] on ASCII text: surrounding whitespace is ignored, then an
    optional sign, then decimal digits with single underscores allowed
    between digits.  [None] stands for [ValueError]. *)
Definition digit_value (c : ascii) : option Z :=
  let n := nat_of_ascii c in
  if ((48 <=? n) && (n <=? 57))%nat then Some (Z.of_nat (n - 48)) else None.

Fixpoint int_digits (acc : Z) (after_digit : bool) (s : string) : option Z :=
  match s with
  | EmptyString => if after_digit then Some acc else None
  | String c s' =>
      match digit_value c with
      | Some d => int_digits (10 * acc + d)%Z true s'
      | None =>
          if Ascii.eqb c "_" && after_digit
          then int_digits acc false s'
          else None
      end
  end.

Definition int (s : string) : option Z :=
  match strip s with
  | String "+" r => int_digits 0 false r
  | String "-" r => option_map Z.opp (int_digits 0 false r)
  | t => int_digits 0 false t
  end.

(** Truth value of a float and of an int: zero is false. *)
Definition float_truthy (x : Q) : bool := negb (Qnum x =? 0)%Z.
Definition int_truthy (x : Z) : bool := negb (x =? 0)%Z.

(** [a or b] where [a] is [float | None], resp. [int | None]. *)
Definition float_or (a : option Q) (b : Q) : Q :=
  match a with
  | Some x => if float_truthy x then x else b
  | None => b
  end.

Definition int_or (a : option Z) (b : Z) : Z :=
  match a with
  | Some x => if int_truthy x then x else b
  | None => b
  end.

End Py.

(** ** Exceptions *)

(** The exceptions the modelled code meets, all subclasses of [Exception]. *)
Inductive exn : Type :=
| OpenAIError (msg : string)
| ValueError (msg : string)
| IndexError (msg : string)
| Exception (msg : string).

Inductive result (A : Type) : Type :=
| Ok (a : A)
| Raise (e : exn).
Arguments Ok {A} a.
Arguments Raise {A} e.

Definition bind {A B} (m : result A) (k : A -> result B) : result B :=
  match m with
  | Ok a => k a
  | Raise e => Raise e
  end.

Notation "x <- m ;; k" := (bind m (fun x => k))
  (at level 61, m at next level, right associativity).

(** [try: body  except Exception as e: handler e] *)
Definition try_except {A} (body : result A) (handler : exn -> result A)
  : result A :=
  match body with
  | Ok a => Ok a
  | Raise e => handler e
  end.

Definition raised {A} (r : result A) : Prop := exists e, r = Raise e.
Definition returned {A} (r : result A) : Prop := exists a, r = Ok a.

(** ** app/types.py and app/config.py *)

Record MessageDict : Type := mkMessage { role : string; content : string }.

Record Settings : Type := mkSettings {
  TELEGRAM_ALLOWED_USER_IDS : string;
  OPENAI_MODEL : string;
  OPENAI_TEMPERATURE : Q;
  OPENAI_MAX_TOKENS : Z;
  MAX_CONVERSATION_HISTORY : nat
}.

(** The defaults of the [Settings] class. *)
Definition default_settings : Settings := {|
  TELEGRAM_ALLOWED_USER_IDS := "";
  OPENAI_MODEL := "gpt-4-turbo-preview";
  OPENAI_TEMPERATURE := (7 # 10)%Q;
  OPENAI_MAX_TOKENS := 800;
  MAX_CONVERSATION_HISTORY := 10
|}.

Fixpoint map_result {A B} (f : A -> result B) (l : list A) : result (list B) :=
  match l with
  | [] => Ok []
  | a :: l' => b <- f a ;; bs <- map_result f l' ;; Ok (b :: bs)
  end.

Definition str_truthy (s : string) : bool :=
  match s with EmptyString => false | _ => true end.

(** [Settings.allowed_user_ids] *)
Definition allowed_user_ids (settings : Settings) : result (list Z) :=
  if negb (str_truthy (Py.strip (TELEGRAM_ALLOWED_USER_IDS settings)))
  then Ok []
  else
    try_except
      (map_result
         (fun uid => match Py.int (Py.strip uid) with
                     | Some n => Ok n
                     | None => Raise (ValueError "invalid literal for int()")
                     end)
         (filter (fun uid => str_truthy (Py.strip uid))
                 (Py.split "," (TELEGRAM_ALLOWED_USER_IDS settings))))
      (fun e => Raise (ValueError "Invalid user ID in TELEGRAM_ALLOWED_USER_IDS")).

(** [Settings.is_user_whitelist_enabled] *)
Definition is_user_whitelist_enabled (settings : Settings) : result bool :=
  ids <- allowed_user_ids settings ;; Ok (0 <? length ids)%nat.

(** ** app/services/openai_service.py: the LLM gateway *)

(** The remote chat-completion endpoint.  The sources read
    [response.choices[0].message.content], which the client library types
    as [str | None]. *)
Record ChatMessage : Type := mkChatMessage { message_content : option string }.
Record Choice : Type := mkChoice { message : ChatMessage }.
Record ChatCompletion : Type := mkCompletion { choices : list Choice }.

Record Request : Type := mkRequest {
  req_model : string;
  req_messages : list MessageDict;
  req_temperature : Q;
  req_max_tokens : Z
}.

(** [client.chat.completions.create]: an external call that answers or raises. *)
Definition Client : Type := Request -> result ChatCompletion.

Record OpenAIService : Type := mkService {
  client : Client;
  model : string;
  temperature : Q;
  max_tokens : Z
}.

(** [OpenAIService.__init__] *)
Definition OpenAIService_init (settings : Settings) (c : Client) : OpenAIService := {|
  client := c;
  model := OPENAI_MODEL settings;
  temperature := OPENAI_TEMPERATURE settings;
  max_tokens := OPENAI_MAX_TOKENS settings
|}.

(** The keyword arguments [complete] passes to the remote call. *)
Definition complete_request (self : OpenAIService) (messages : list MessageDict)
    (temperature_arg : option Q) (max_tokens_arg : option Z) : Request := {|
  req_model := model self;
  req_messages := messages;
  req_temperature := Py.float_or temperature_arg (temperature self);
  req_max_tokens := Py.int_or max_tokens_arg (max_tokens self)
|}.

(** [response.choices[0].message.content] *)
Definition first_content (response : ChatCompletion) : result (option string) :=
  match choices response with
  | [] => Raise (IndexError "list index out of range")
  | c :: _ => Ok (message_content (message c))
  end.

(** [OpenAIService.complete]: both handlers log and re-raise. *)
Definition complete (self : OpenAIService) (messages : list MessageDict)
    (temperature_arg : option Q) (max_tokens_arg : option Z) : result string :=
  try_except
    (response <- client self
                   (complete_request self messages temperature_arg max_tokens_arg) ;;
     c <- first_content response ;;
     match c with
     | None => Raise (ValueError "OpenAI returned empty response")
     | Some text => Ok (Py.strip text)
     end)
    (fun e => Raise e).

Definition intent_system_prompt : string :=
"You are an intent classifier for an AI social media system.

Analyze the user's message and classify it into one of these intents:
- create_post: User wants to create social media content
- edit_image: User wants to edit an image (but no image uploaded yet)
- general: General conversation or unclear intent

Respond with ONLY the intent name, nothing else.".

Definition analyze_intent_messages (text : string) (history : list MessageDict)
  : list MessageDict :=
  [mkMessage "system" intent_system_prompt]
    ++ Py.last_n 3 history
    ++ [mkMessage "user" text].

(** [OpenAIService.analyze_intent] *)
Definition analyze_intent (self : OpenAIService) (text : string)
    (history : list MessageDict) : result string :=
  let messages := analyze_intent_messages text history in
  try_except
    (result <- complete self messages (Some 0%Q) (Some 20%Z) ;;
     let intent := Py.strip (Py.lower result) in
     if Py.str_mem intent ["create_post"; "edit_image"; "general"]
     then Ok intent
     else Ok "general")
    (fun e => Ok "general").

Definition image_intent_system_prompt : string :=
"You are an intent classifier for image-related requests.

Analyze the caption and classify it into one of these intents:
- edit_only: User wants to edit/modify the image
- post_only: User wants to create a social media post about the image
- both: User wants both image editing and post creation

Respond with ONLY the intent name, nothing else.".

(** [OpenAIService.analyze_image_intent] *)
Definition analyze_image_intent (self : OpenAIService) (caption : string)
  : result string :=
  let messages := [mkMessage "system" image_intent_system_prompt;
                   mkMessage "user" caption] in
  try_except
    (result <- complete self messages (Some 0%Q) (Some 20%Z) ;;
     let intent := Py.strip (Py.lower result) in
     if Py.str_mem intent ["edit_only"; "post_only"; "both"]
     then Ok intent
     else Ok "edit_only")
    (fun e => Ok "edit_only").

Definition platform_system_prompt : string :=
"You are a platform detector for social media content creation.

Analyze the request and identify which platforms they want content for.

Available platforms: x, linkedin, instagram, youtube, school

Respond with a comma-separated list or " ++ Py.dq ++ "none" ++ Py.dq ++
" if no specific platform mentioned.
Example: " ++ Py.dq ++ "linkedin" ++ Py.dq ++ " or " ++ Py.dq ++ "x,instagram"
++ Py.dq ++ " or " ++ Py.dq ++ "none" ++ Py.dq ++ "
".

Definition valid_platforms : list string :=
  ["x"; "twitter"; "linkedin"; "instagram"; "youtube"; "school"].

(** The list comprehension that closes [detect_platforms]. *)
Definition normalize_platforms (platforms : list string) : list string :=
  map (fun p => if String.eqb p "twitter" then "x" else p)
      (filter (fun p => Py.str_mem p valid_platforms) platforms).

(** [OpenAIService.detect_platforms] *)
Definition detect_platforms (self : OpenAIService) (prompt : string)
  : result (list string) :=
  let messages := [mkMessage "system" platform_system_prompt;
                   mkMessage "user" prompt] in
  try_except
    (result <- complete self messages (Some 0%Q) (Some 50%Z) ;;
     let result := Py.strip (Py.lower result) in
     if String.eqb result "none" then Ok []
     else
       let platforms := map Py.strip (Py.split "," result) in
       Ok (normalize_platforms platforms))
    (fun e => Ok []).

(** ** app/agents/platform_agents: the five generators *)

(** The one capability the coordinator uses ([PlatformAgent.create_post]). *)
Record PlatformAgent : Type := mkAgent {
  create_post : string -> list MessageDict -> result string
}.

(** The message list every generator builds. *)
Definition agent_messages (system_prompt prompt : string)
    (history : list MessageDict) : list MessageDict :=
  [mkMessage "system" system_prompt]
    ++ Py.last_n 3 history
    ++ [mkMessage "user" prompt].

Module XAgent.

Definition MAX_LENGTH : nat := 280.

Definition system_prompt : string :=
"You are an expert X (Twitter) content creator.

X POST REQUIREMENTS:
- MAXIMUM 280 characters (STRICT LIMIT)
- Strong, attention-grabbing opening
- Concise and punchy
- Clear value or insight
- Conversational and authentic
- 1-3 hashtags (included in character count)
- Use line breaks for readability

TONE: Confident, direct, engaging

Create an X post. MUST be under 280 characters.".

(** "Enforce character limit": the [if len(post) > self.MAX_LENGTH] block. *)
Definition enforce_limit (post : string) : string :=
  if (MAX_LENGTH <? Py.len post)%nat
  then Py.slice_to (MAX_LENGTH - 3) post ++ "..."
  else post.

Definition create_post (openai : OpenAIService) (prompt : string)
    (history : list MessageDict) : result string :=
  let messages := agent_messages system_prompt prompt history in
  try_except
    (post <- complete openai messages (Some (7 # 10)%Q) (Some 150%Z) ;;
     Ok (enforce_limit post))
    (fun e => Raise e).

Definition new (openai : OpenAIService) : PlatformAgent :=
  mkAgent (create_post openai).

End XAgent.

Module LinkedInAgent.

Definition system_prompt : string :=
"You are an expert LinkedIn content creator.

LINKEDIN POST CHARACTERISTICS:
- Professional yet conversational and authentic
- Start with an attention-grabbing hook
- Use storytelling and personal insights
- Demonstrate thought leadership
- Include actionable insights
- Short paragraphs with line breaks
- End with engagement (question or CTA)
- 3-5 relevant hashtags at end
- 150-300 words optimal

TONE: Professional, confident, educational, engaging

Create a LinkedIn post based on the user's request.".

Definition create_post (openai : OpenAIService) (prompt : string)
    (history : list MessageDict) : result string :=
  let messages := agent_messages system_prompt prompt history in
  try_except
    (post <- complete openai messages (Some (7 # 10)%Q) (Some 800%Z) ;;
     Ok post)
    (fun e => Raise e).

Definition new (openai : OpenAIService) : PlatformAgent :=
  mkAgent (create_post openai).

End LinkedInAgent.

Module InstagramAgent.

Definition system_prompt : string :=
"You are an expert Instagram content creator.

INSTAGRAM CAPTION CHARACTERISTICS:
- Visual-first: complement the image
- Strong opening hook
- Authentic and relatable
- Storytelling when appropriate
- 3-5 emojis naturally integrated
- Line breaks for readability
- End with CTA or question
- 5-10 relevant hashtags at end
- 125-150 words ideal

TONE: Authentic, personal, inspirational

Create an Instagram caption.".

Definition create_post (openai : OpenAIService) (prompt : string)
    (history : list MessageDict) : result string :=
  let messages := agent_messages system_prompt prompt history in
  try_except
    (post <- complete openai messages (Some (7 # 10)%Q) (Some 600%Z) ;;
     Ok post)
    (fun e => Raise e).

Definition new (openai : OpenAIService) : PlatformAgent :=
  mkAgent (create_post openai).

End InstagramAgent.

Module YouTubeAgent.

Definition system_prompt : string :=
"You are an expert YouTube content creator.

YOUTUBE CONTENT STRUCTURE:
1. Title (60-70 characters, attention-grabbing, keyword-rich)
2. Description (SEO-optimized, 150-300 words)

TITLE: Clear value, includes keywords, creates curiosity
DESCRIPTION: First 2-3 lines crucial, natural keywords, timestamps if relevant, CTA

Format as:
**Title:** [title]

**Description:**
[description]

TONE: Enthusiastic, clear, SEO-conscious

Create YouTube title and description.".

Definition create_post (openai : OpenAIService) (prompt : string)
    (history : list MessageDict) : result string :=
  let messages := agent_messages system_prompt prompt history in
  try_except
    (content <- complete openai messages (Some (7 # 10)%Q) (Some 800%Z) ;;
     Ok content)
    (fun e => Raise e).

Definition new (openai : OpenAIService) : PlatformAgent :=
  mkAgent (create_post openai).

End YouTubeAgent.

Module SchoolAgent.

Definition system_prompt : string :=
"You are an expert community manager for School platform.

SCHOOL POST CHARACTERISTICS:
- Community-focused and collaborative
- Educational and value-driven
- Encourages discussion
- Friendly, supportive tone
- Clear structure with headings
- 150-250 words
- 2-4 emojis for visual breaks
- Often ends with " ++ Py.dq ++ "Love an automation, Jack" ++ Py.dq ++ "

TONE: Warm, expert but approachable, community-oriented

Create a School community post.".

Definition signature_marker : string := "Love an automation".

Definition signature : string :=
  Py.nl ++ Py.nl ++ "Love an automation," ++ Py.nl ++ "Jack".

(** "Add signature if not present": the [if ... not in post] block. *)
Definition add_signature (post : string) : string :=
  if negb (Py.str_in signature_marker post)
  then post ++ signature
  else post.

Definition create_post (openai : OpenAIService) (prompt : string)
    (history : list MessageDict) : result string :=
  let messages := agent_messages system_prompt prompt history in
  try_except
    (post <- complete openai messages (Some (7 # 10)%Q) (Some 700%Z) ;;
     Ok (add_signature post))
    (fun e => Raise e).

Definition new (openai : OpenAIService) : PlatformAgent :=
  mkAgent (create_post openai).

End SchoolAgent.

(** ** app/agents/post_creator.py: the fan-out coordinator *)

Record PostCreatorAgent : Type := mkPostCreator {
  openai : OpenAIService;
  agents : list (string * PlatformAgent)
}.

(** [PostCreatorAgent.__init__]: every agent builds its own gateway object
    from the same settings. *)
Definition PostCreatorAgent_init (service : OpenAIService) : PostCreatorAgent := {|
  openai := service;
  agents := [ ("x", XAgent.new service);
              ("twitter", XAgent.new service);
              ("linkedin", LinkedInAgent.new service);
              ("instagram", InstagramAgent.new service);
              ("youtube", YouTubeAgent.new service);
              ("school", SchoolAgent.new service) ]
|}.

(** [dict.get(key)] *)
Fixpoint dict_get {V} (d : list (string * V)) (key : string) : option V :=
  match d with
  | [] => None
  | (k, v) :: d' => if String.eqb k key then Some v else dict_get d' key
  end.

Definition display_name (platform : string) : string :=
  if Py.str_mem (Py.lower platform) ["x"; "twitter"] then "X"
  else Py.title platform.

(** The loop over the detected platforms: a task is the pending call
    [agent.create_post(prompt, history)], that is its outcome once awaited. *)
Definition collect_tasks (self : PostCreatorAgent) (prompt : string)
    (history : list MessageDict) (platforms : list string)
  : list (result string) * list string :=
  fold_left
    (fun (acc : list (result string) * list string) platform =>
       let (tasks, platform_names) := acc in
       match dict_get (agents self) (Py.lower platform) with
       | Some agent =>
           ((tasks ++ [create_post agent prompt history])%list,
            (platform_names ++ [display_name platform])%list)
       | None => acc
       end)
    platforms ([], []).

(** [asyncio.gather] with [return_exceptions=True]: every task runs to its
    end and its outcome, value or exception, is listed at the task's place. *)
Definition gather_return_exceptions (tasks : list (result string))
  : list (result string) := tasks.

Definition header : string := "✨ **Generated Posts**" ++ Py.nl.

Definition error_block (platform_name : string) : string :=
  Py.nl ++ "❌ **" ++ platform_name ++ "**: Error generating post" ++ Py.nl.

Definition success_block (platform_name content : string) : string :=
  Py.nl ++ "📱 **" ++ platform_name ++ "**" ++ Py.nl ++ content ++ Py.nl.

(** The formatting loop over [zip(platform_names, results)]. *)
Definition response_parts (platform_names : list string)
    (results : list (result string)) : list string :=
  fold_left
    (fun parts (entry : string * result string) =>
       let (platform_name, result) := entry in
       match result with
       | Raise _ => (parts ++ [error_block platform_name])%list
       | Ok content => (parts ++ [success_block platform_name content])%list
       end)
    (combine platform_names results) [header].

Definition _no_platform_response : string :=
  "📝 I can create posts for multiple platforms!" ++ Py.nl ++ Py.nl ++
  "Which platform(s) would you like?" ++ Py.nl ++
  "• X (Twitter)" ++ Py.nl ++
  "• LinkedIn" ++ Py.nl ++
  "• Instagram" ++ Py.nl ++
  "• YouTube" ++ Py.nl ++
  "• School" ++ Py.nl ++ Py.nl ++
  "Example: 'Create a LinkedIn post about AI automation'".

(** [create_posts] from the point where [platforms] is known. *)
Definition create_posts_for (self : PostCreatorAgent) (prompt : string)
    (history : list MessageDict) (platforms : list string) : string :=
  match platforms with
  | [] => _no_platform_response
  | _ =>
      let (tasks, platform_names) := collect_tasks self prompt history platforms in
      let results := gather_return_exceptions tasks in
      Py.join Py.nl (response_parts platform_names results)
  end.

(** [PostCreatorAgent.create_posts] *)
Definition create_posts (self : PostCreatorAgent) (prompt : string)
    (history : list MessageDict) : result string :=
  platforms <- detect_platforms (openai self) prompt ;;
  Ok (create_posts_for self prompt history platforms).

(** ** app/agents/super_agent.py: history retrieval *)

Module Db.

(** Modelled from the spec: the [messages] table of [app/models/database.py],
    which the sources import but do not contain: a row belongs to a
    conversation and has a role, a free-text content, a type tag and a
    creation timestamp.  A table is the list of its rows in insertion
    order; a timestamp is a number of clock ticks. *)
Record Message : Type := mkRow {
  conversation_id : Z;
  role : string;
  content : string;
  message_type : string;
  created_at : Z
}.

Definition Table : Type := list Message.

(** [session.add(message); session.commit()] *)
Definition add (table : Table) (m : Message) : Table := (table ++ [m])%list.

(** [.filter(Message.conversation_id == cid)] *)
Definition filter_conversation (cid : Z) (rows : list Message) : list Message :=
  filter (fun m => (conversation_id m =? cid)%Z) rows.

(** [.order_by(Message.created_at.desc())], as a stable insertion sort. *)
Fixpoint insert_desc (m : Message) (rows : list Message) : list Message :=
  match rows with
  | [] => [m]
  | r :: rows' =>
      if (created_at m <? created_at r)%Z
      then r :: insert_desc m rows'
      else m :: rows
  end.

Fixpoint order_by_created_at_desc (rows : list Message) : list Message :=
  match rows with
  | [] => []
  | m :: rows' => insert_desc m (order_by_created_at_desc rows')
  end.

(** [.limit(n)] *)
Definition limit (n : nat) (rows : list Message) : list Message := firstn n rows.

End Db.

Record SuperAgent : Type := mkSuperAgent {
  self_conversation_id : Z;
  db : Db.Table
}.

(** [SuperAgent._get_conversation_history] *)
Definition _get_conversation_history (settings : Settings) (self : SuperAgent)
    (limit_arg : option nat) : list MessageDict :=
  let limit := match limit_arg with
               | None => MAX_CONVERSATION_HISTORY settings
               | Some n => n
               end in
  let messages :=
    Db.limit limit
      (Db.order_by_created_at_desc
         (Db.filter_conversation (self_conversation_id self) (db self))) in
  map (fun msg => mkMessage (Db.role msg) (Db.content msg)) (rev messages).

(** ** app/telegram/bot.py: authorization *)

(** [TelegramBot._check_authorization] *)
Definition _check_authorization (settings : Settings) (user_id : Z) : result bool :=
  enabled <- is_user_whitelist_enabled settings ;;
  if negb enabled then Ok true
  else
    ids <- allowed_user_ids settings ;;
    Ok (Py.int_mem user_id ids).

(** ** app/agents/super_agent.py: the dialog router *)

Definition general_system_prompt : string :=
"You are a helpful AI assistant for a social media automation system.

You help users create social media content and edit images. Be friendly and guide them
on how to use the system effectively.

Your capabilities:
- Create posts for X (Twitter), LinkedIn, Instagram, YouTube, and School
- Edit images with AI (coming soon)
- Generate multi-platform content simultaneously

Keep responses concise and helpful.".

Definition _image_upload_required_response : string :=
  "ðŸ“¸ To edit an image, please upload an image along with your instructions." ++ Py.nl ++
  Py.nl ++
  "For example, upload a photo and add a caption like:" ++ Py.nl ++
  "â€¢ 'Change the text to Hello World'" ++ Py.nl ++
  "â€¢ 'Make the background blue'" ++ Py.nl ++
  "â€¢ 'Add a second dog to this image'".

Definition _image_instructions_required_response : string :=
  "ðŸ“¸ I received your image! What would you like me to do with it?" ++ Py.nl ++
  Py.nl ++
  "You can:" ++ Py.nl ++
  "â€¢ Edit the image: 'Change the text to...', 'Make the background blue'" ++ Py.nl ++
  "â€¢ Create a post: 'Write a LinkedIn post about this image'" ++ Py.nl ++
  "â€¢ Both: 'Add a logo and create an Instagram post'".

Definition _image_editing_not_available_response : string :=
  "ðŸŽ¨ Image editing requires additional configuration." ++ Py.nl ++
  Py.nl ++
  "To enable image editing, please configure:" ++ Py.nl ++
  "â€¢ IMAGEBB_API_KEY" ++ Py.nl ++
  "â€¢ REPLICATE_API_TOKEN" ++ Py.nl ++
  Py.nl ++
  "I can still help you create posts about your image!".

Definition general_messages (text : string) (history : list MessageDict)
  : list MessageDict :=
  ([mkMessage "system" general_system_prompt]
     ++ Py.last_n 5 history
     ++ [mkMessage "user" text])%list.

(** [SuperAgent._handle_general_conversation] *)
Definition _handle_general_conversation (openai : OpenAIService) (text : string)
    (history : list MessageDict) : result string :=
  let messages := general_messages text history in
  try_except
    (complete openai messages (Some (7 # 10)%Q) (Some 500%Z))
    (fun e => Ok "I'm sorry, I encountered an error. Please try again.").

(** The gateway and the coordinator that [SuperAgent.__init__] builds and
    keeps in [self.openai] and [self.post_creator]. *)
Record SuperAgentServices : Type := mkServices {
  agent_openai : OpenAIService;
  post_creator : PostCreatorAgent
}.

Definition SuperAgent_services (settings : Settings) (remote : Client)
  : SuperAgentServices := {|
  agent_openai := OpenAIService_init settings remote;
  post_creator := PostCreatorAgent_init (OpenAIService_init settings remote)
|}.

(** [SuperAgent.process_text] *)
Definition process_text (settings : Settings) (services : SuperAgentServices)
    (self : SuperAgent) (text : string) : result string :=
  let history := _get_conversation_history settings self None in
  intent <- analyze_intent (agent_openai services) text history ;;
  if String.eqb intent "create_post"
  then create_posts (post_creator services) text history
  else if String.eqb intent "edit_image"
  then Ok _image_upload_required_response
  else _handle_general_conversation (agent_openai services) text history.

(** [SuperAgent.process_image] *)
Definition process_image (settings : Settings) (services : SuperAgentServices)
    (self : SuperAgent) (image_path caption : string) : result string :=
  if negb (str_truthy caption)
  then Ok _image_instructions_required_response
  else
    let history := _get_conversation_history settings self None in
    intent <- analyze_image_intent (agent_openai services) caption ;;
    if String.eqb intent "edit_only"
    then Ok _image_editing_not_available_response
    else if String.eqb intent "post_only"
    then
      let context := "User uploaded an image and wants: " ++ caption in
      create_posts (post_creator services) context history
    else Ok _image_editing_not_available_response.

(** ** app/telegram/bot.py: the store helpers and the handlers *)

Module Store.

(** Modelled from the spec: the [conversations] table of
    [app/models/database.py], which the sources import but do not contain:
    a row has a surrogate id, the external user id and chat id, and a
    creation timestamp.  The store gives a new row the key after the
    largest one in the table. *)
Record Conversation : Type := mkConversation {
  id : Z;
  telegram_user_id : Z;
  telegram_chat_id : Z;
  created_at : Z
}.

Record State : Type := mkState {
  conversations : list Conversation;
  messages : Db.Table
}.

(** [.filter(user_id == u, chat_id == c).first()] *)
Definition first_conversation (rows : list Conversation) (user_id chat_id : Z)
  : option Conversation :=
  find (fun c => ((telegram_user_id c =? user_id)%Z &&
                  (telegram_chat_id c =? chat_id)%Z)%bool) rows.

Definition next_id (rows : list Conversation) : Z :=
  (1 + fold_right Z.max 0 (map id rows))%Z.

End Store.

(** [TelegramBot._get_or_create_conversation]; [now] is the creation time
    the store stamps on a new row. *)
Definition _get_or_create_conversation (state : Store.State) (now : Z)
    (user_id chat_id : Z) : Store.State * Store.Conversation :=
  match Store.first_conversation (Store.conversations state) user_id chat_id with
  | Some conversation => (state, conversation)
  | None =>
      let conversation :=
        Store.mkConversation (Store.next_id (Store.conversations state))
                             user_id chat_id now in
      (Store.mkState (Store.conversations state ++ [conversation])%list
                     (Store.messages state),
       conversation)
  end.

(** [TelegramBot._save_message] *)
Definition _save_message (state : Store.State) (now : Z) (conversation_id : Z)
    (role content message_type : string) : Store.State :=
  Store.mkState
    (Store.conversations state)
    (Db.add (Store.messages state)
            (Db.mkRow conversation_id role content message_type now)).

(** What a handler reads from the [Update] it is given. *)
Record Update : Type := mkUpdate {
  effective_user_id : Z;
  effective_chat_id : Z;
  message_text : string;
  message_caption : option string;
  message_photo : list string
}.

(** What a handler sends back through the transport. *)
Inductive Outgoing : Type :=
| ReplyText (text : string) (parse_mode : option string)
| SendAction (action : string).

(** The creation times the store stamps on the rows one handler run adds. *)
Record Clock : Type := mkClock {
  conversation_time : Z;
  user_message_time : Z;
  assistant_message_time : Z
}.

Definition unauthorized_reply : Outgoing :=
  ReplyText "⛔ You are not authorized to use this bot." None.

(** [TelegramBot._start_command] *)
Definition _start_command (settings : Settings) (update : Update)
  : result (list Outgoing) :=
  authorized <- _check_authorization settings (effective_user_id update) ;;
  if negb authorized then Ok [unauthorized_reply]
  else
    let welcome :=
      "🤖 **AI Social Media System**" ++ Py.nl ++
      Py.nl ++
      "I can help you with:" ++ Py.nl ++
      "• Generate posts for X, LinkedIn, Instagram, YouTube, and School" ++ Py.nl ++
      "• Create multi-platform content simultaneously" ++ Py.nl ++
      Py.nl ++
      "Just send me a message to get started!" ++ Py.nl ++
      Py.nl ++
      "Use /help for more information." in
    Ok [ReplyText welcome (Some "Markdown")].

(** [TelegramBot._help_command] *)
Definition _help_command (settings : Settings) (update : Update)
  : result (list Outgoing) :=
  authorized <- _check_authorization settings (effective_user_id update) ;;
  if negb authorized then Ok [unauthorized_reply]
  else
    let help_text :=
      "📖 **How to Use**" ++ Py.nl ++
      Py.nl ++
      "**Creating Posts:**" ++ Py.nl ++
      "• Send a text prompt: 'Create a LinkedIn post about AI automation'" ++ Py.nl ++
      "• Request multiple platforms: 'Make posts for X and Instagram'" ++ Py.nl ++
      Py.nl ++
      "**Tips:**" ++ Py.nl ++
      "• Be specific with your requests" ++ Py.nl ++
      "• You can generate content for multiple platforms at once" ++ Py.nl in
    Ok [ReplyText help_text (Some "Markdown")].

(** [TelegramBot._handle_text].  The store and the transport are taken not
    to fail; what was committed before an exception stays committed. *)
Definition _handle_text (settings : Settings) (remote : Client) (clock : Clock)
    (state : Store.State) (update : Update)
  : result (Store.State * list Outgoing) :=
  authorized <- _check_authorization settings (effective_user_id update) ;;
  if negb authorized then Ok (state, [unauthorized_reply])
  else
    let user_id := effective_user_id update in
    let chat_id := effective_chat_id update in
    let text := message_text update in
    let sent := [SendAction "typing"] in
    let (state, conversation) :=
      _get_or_create_conversation state (conversation_time clock) user_id chat_id in
    let state :=
      _save_message state (user_message_time clock)
                    (Store.id conversation) "user" text "text" in
    let agent := mkSuperAgent (Store.id conversation) (Store.messages state) in
    match process_text settings (SuperAgent_services settings remote) agent text with
    | Ok response =>
        let state :=
          _save_message state (assistant_message_time clock)
                        (Store.id conversation) "assistant" response "text" in
        Ok (state, (sent ++ [ReplyText response (Some "Markdown")])%list)
    | Raise e =>
        Ok (state,
            (sent ++ [ReplyText "❌ Sorry, I encountered an error. Please try again." None])%list)
    end.

(** [update.message.photo[-1]] *)
Definition last_photo (photo : list string) : result string :=
  match rev photo with
  | [] => Raise (IndexError "list index out of range")
  | file_id :: _ => Ok file_id
  end.

(** [TelegramBot._handle_image]; [download file_id path] stands for
    [context.bot.get_file] followed by [file.download_to_drive].  As for
    [_handle_text], the store and the transport are taken not to fail. *)
Definition _handle_image (settings : Settings) (remote : Client)
    (download : string -> string -> result unit) (clock : Clock)
    (state : Store.State) (update : Update)
  : result (Store.State * list Outgoing) :=
  authorized <- _check_authorization settings (effective_user_id update) ;;
  if negb authorized then Ok (state, [unauthorized_reply])
  else
    let user_id := effective_user_id update in
    let chat_id := effective_chat_id update in
    let caption := match message_caption update with
                   | Some c => if str_truthy c then c else EmptyString
                   | None => EmptyString
                   end in
    let sent := [SendAction "typing"] in
    let failed :=
      ReplyText "❌ Sorry, I encountered an error processing your image." None in
    match (file_id <- last_photo (message_photo update) ;;
           let image_path := "/tmp/telegram_image_" ++ file_id ++ ".jpg" in
           _ <- download file_id image_path ;;
           Ok image_path) with
    | Raise e => Ok (state, (sent ++ [failed])%list)
    | Ok image_path =>
        let (state, conversation) :=
          _get_or_create_conversation state (conversation_time clock)
                                      user_id chat_id in
        let state :=
          _save_message state (user_message_time clock) (Store.id conversation)
                        "user" ("[Image uploaded] " ++ caption) "image" in
        let agent := mkSuperAgent (Store.id conversation) (Store.messages state) in
        match process_image settings (SuperAgent_services settings remote)
                            agent image_path caption with
        | Ok response =>
            let state :=
              _save_message state (assistant_message_time clock)
                            (Store.id conversation) "assistant" response "text" in
            Ok (state, (sent ++ [ReplyText response (Some "Markdown")])%list)
        | Raise e => Ok (state, (sent ++ [failed])%list)
        end
    end.

(** * Vocabulary of the statements *)

(** ** Remote endpoints used as examples *)

(** Test doubles: a remote endpoint that always answers with one choice, and
    one that always fails. *)
Definition answering (text : option string) : Client :=
  fun _ => Ok (mkCompletion [mkChoice (mkChatMessage text)]).

Definition failing : Client := fun _ => Raise (OpenAIError "API Error").

(** A remote endpoint that only answers requests sampled at temperature 0. *)
Definition zero_temperature_only : Client :=
  fun request =>
    if Qeq_bool (req_temperature request) 0
    then Ok (mkCompletion [mkChoice (mkChatMessage (Some "create_post"))])
    else Raise (OpenAIError "temperature must be 0").

(** A remote endpoint whose platform classifier (50 output tokens) answers
    "x, linkedin", on which the X generator (150 output tokens) fails and
    the other generators succeed. *)
Definition x_down_linkedin_up : Client :=
  fun request =>
    if (req_max_tokens request =? 50)%Z
    then Ok (mkCompletion [mkChoice (mkChatMessage (Some "x, linkedin"))])
    else if (req_max_tokens request =? 150)%Z
    then Raise (OpenAIError "API Error")
    else Ok (mkCompletion [mkChoice (mkChatMessage (Some "Here's a post..."))]).

(** A remote endpoint whose platform classifier names X twice. *)
Definition names_x_again : Client :=
  fun request =>
    if (req_max_tokens request =? 50)%Z
    then Ok (mkCompletion [mkChoice (mkChatMessage (Some "x, x"))])
    else Ok (mkCompletion [mkChoice (mkChatMessage (Some "Hello X"))]).

(** A remote endpoint whose platform classifier (50 output tokens) names X
    by both of its names. *)
Definition names_x_twice : Client :=
  fun request =>
    if (req_max_tokens request =? 50)%Z
    then Ok (mkCompletion [mkChoice (mkChatMessage (Some "twitter,x"))])
    else Ok (mkCompletion [mkChoice (mkChatMessage (Some "Hello X"))]).

Definition three_hundred_As : string :=
  Eval cbv in String.concat "" (repeat "A" 300).

(** Two messages of conversation 1 appended in the order A, B and stamped
    with the same creation time. *)
Definition two_tied_messages : Db.Table :=
  [Db.mkRow 1 "user" "A" "text" 100;
   Db.mkRow 1 "assistant" "B" "text" 100].

(** One hundred accented letters (two bytes each) and one hundred plain
    ones: 200 characters in 300 bytes. *)
Definition two_hundred_characters : string :=
  Eval cbv in String.concat "" (repeat "é" 100 ++ repeat "a" 100)%list.

Definition three_messages : Db.Table :=
  [Db.mkRow 1 "user" "A" "text" 100;
   Db.mkRow 2 "user" "other conversation" "text" 101;
   Db.mkRow 1 "assistant" "B" "text" 102;
   Db.mkRow 1 "user" "C" "text" 103].

(** ** Notions the statements use *)

(** The content of a response, absent when the response has no choice or
    when its first choice carries [None]. *)
Definition response_content (response : ChatCompletion) : option string :=
  match choices response with
  | [] => None
  | c :: _ => message_content (message c)
  end.

Definition detect_messages (prompt : string) : list MessageDict :=
  [mkMessage "system" platform_system_prompt; mkMessage "user" prompt].

(** The comma-separated tokens of a classifier reply, as the sources cut
    them: the reply lower-cased and stripped, split at commas, each piece
    stripped. *)
Definition reply_tokens (reply : string) : list string :=
  map Py.strip (Py.split "," (Py.strip (Py.lower reply))).

Definition supported_platforms : list string :=
  ["x"; "linkedin"; "instagram"; "youtube"; "school"].

(** The spec's wording of the parsing, token by token: "twitter" becomes
    "x", a supported platform name is kept as it is, anything else is
    dropped. *)
Definition spec_keep_token (token : string) : list string :=
  if String.eqb token "twitter" then ["x"]
  else if Py.str_mem token supported_platforms then [token]
  else [].

(** Whether [self.agents.get(platform.lower())] finds an agent. *)
Definition has_agent (self : PostCreatorAgent) (platform : string) : bool :=
  match dict_get (agents self) (Py.lower platform) with
  | Some _ => true
  | None => false
  end.

(** The entries of the detected list that have an agent, with that agent,
    in the order of the list and with their repetitions. *)
Definition recognized (self : PostCreatorAgent) (platforms : list string)
  : list (string * PlatformAgent) :=
  flat_map
    (fun platform =>
       match dict_get (agents self) (Py.lower platform) with
       | Some agent => [(platform, agent)]
       | None => []
       end)
    platforms.

Definition task_of (prompt : string) (history : list MessageDict)
    (entry : string * PlatformAgent) : result string :=
  create_post (snd entry) prompt history.

Definition format_block (entry : string * result string) : string :=
  match snd entry with
  | Raise _ => error_block (fst entry)
  | Ok content => success_block (fst entry) content
  end.

(** The block of one recognized entry: its label and its own outcome. *)
Definition block_of (prompt : string) (history : list MessageDict)
    (entry : string * PlatformAgent) : string :=
  format_block (display_name (fst entry), task_of prompt history entry).

(** The claim that [complete] returns no value when the remote content is
    empty. *)
Definition raises_on_empty_content : Prop :=
  forall (self : OpenAIService) (messages : list MessageDict)
         (t : option Q) (k : option Z) (response : ChatCompletion),
    client self (complete_request self messages t k) = Ok response ->
    response_content response = Some "" ->
    raised (complete self messages t k).

(** The claim that the reply has exactly one labelled block per platform:
    no label is printed twice. *)
Definition one_block_per_platform : Prop :=
  forall (self : PostCreatorAgent) (prompt : string) (history : list MessageDict)
         (platforms : list string),
    platforms <> [] ->
    NoDup (snd (collect_tasks self prompt history platforms)).

(** The claim that aliases are deduplicated before generation: no display
    name is selected, hence generated and shown, more than once. *)
Definition deduplicates_aliases : Prop :=
  forall (self : PostCreatorAgent) (prompt : string) (history : list MessageDict)
         (platforms : list string),
    detect_platforms (openai self) prompt = Ok platforms ->
    NoDup platforms /\
    NoDup (snd (collect_tasks self prompt history platforms)).

Definition to_dict (msg : Db.Message) : MessageDict :=
  mkMessage (Db.role msg) (Db.content msg).



(** ** Further notions: the router, the store and the handlers *)

(** A remote endpoint whose intent classifier (20 output tokens) answers
    "create_post", whose platform classifier (50 output tokens) answers "x",
    and whose other completions are a short post. *)
Definition posting_x : Client :=
  fun request =>
    if (req_max_tokens request =? 20)%Z
    then Ok (mkCompletion [mkChoice (mkChatMessage (Some "create_post"))])
    else if (req_max_tokens request =? 50)%Z
    then Ok (mkCompletion [mkChoice (mkChatMessage (Some "x"))])
    else Ok (mkCompletion [mkChoice (mkChatMessage (Some "tweet!"))]).

(** The labels the coordinator can print for a detected platform. *)
Definition display_names : list string :=
  ["X"; "Linkedin"; "Instagram"; "Youtube"; "School"].

(** The lower-cased, stripped token the classifiers compare. *)
Definition intent_token (reply : string) : string := Py.strip (Py.lower reply).

(** The entries of the allow-list setting that are not blank. *)
Definition allow_list_entries (settings : Settings) : list string :=
  filter (fun uid => str_truthy (Py.strip uid))
         (Py.split "," (TELEGRAM_ALLOWED_USER_IDS settings)).

(** Rows listed with non-decreasing creation times. *)
Definition ascending (rows : list Db.Message) : Prop :=
  StronglySorted (fun a b => (Db.created_at a <= Db.created_at b)%Z) rows.

Definition descending (rows : list Db.Message) : Prop :=
  StronglySorted (fun a b => (Db.created_at b <= Db.created_at a)%Z) rows.

(** The identity key of a conversation, and the tables in which neither a
    key nor an id occurs twice. *)
Definition conversation_key (c : Store.Conversation) : Z * Z :=
  (Store.telegram_user_id c, Store.telegram_chat_id c).

Definition well_keyed (rows : list Store.Conversation) : Prop :=
  NoDup (map conversation_key rows) /\ NoDup (map Store.id rows).

Definition empty_store : Store.State := Store.mkState [] [].



(** The requests that handling the text [text] may send to the model: the
    platform-detection request for it, and the requests whose messages end
    with the live message twice. *)
Definition consulted (text : string) (request : Request) : Prop :=
  req_messages request = detect_messages text \/
  exists head,
    req_messages request
    = (head ++ [mkMessage "user" text; mkMessage "user" text])%list.

Definition is_reply (sent : Outgoing) : bool :=
  match sent with
  | ReplyText _ _ => true
  | SendAction _ => false
  end.

(** A store grows out of another: the messages are appended to, and the
    conversations are either the same or those left by looking up, or
    creating at time [now], the conversation of the (user, chat) pair. *)
Definition grows_from (state state' : Store.State) (now user_id chat_id : Z)
  : Prop :=
  (exists added,
     Store.messages state' = (Store.messages state ++ added)%list) /\
  (Store.conversations state' = Store.conversations state \/
   Store.conversations state'
     = Store.conversations
         (fst (_get_or_create_conversation state now user_id chat_id))).

(** * Properties *)

(** ** Facts about the built-ins *)

Section PyFacts.

Lemma length_append (s t : string) :
  Py.len (s ++ t) = Py.len s + Py.len t.
Proof.
  induction s as [|c s IH]; [reflexivity|].
  cbn [append Py.len]. destruct (Py.is_continuation c); rewrite IH; reflexivity.
Qed.

Lemma length_slice_to (n : nat) (s : string) :
  Py.len (Py.slice_to n s) = Nat.min n (Py.len s).
Proof.
  revert n; induction s as [|c s IH]; intros n; [destruct n; reflexivity|].
  cbn [Py.slice_to Py.len]. destruct (Py.is_continuation c) eqn:E.
  - cbn [Py.len]. rewrite E. apply IH.
  - destruct n as [|n]; [reflexivity|].
    cbn [Py.len]. rewrite E, IH. reflexivity.
Qed.

Lemma str_in_append_r (needle prefix hay : string) :
  Py.str_in needle hay = true -> Py.str_in needle (prefix ++ hay) = true.
Proof.
  intros H; induction prefix as [|c p IH]; simpl; [exact H |].
  rewrite IH; apply orb_true_r.
Qed.

Lemma str_mem_In (x : string) (l : list string) :
  Py.str_mem x l = true <-> In x l.
Proof.
  unfold Py.str_mem; rewrite existsb_exists; split.
  - intros [y [Hy E]]; apply String.eqb_eq in E; now subst.
  - intros H; exists x; split; [exact H | apply String.eqb_refl].
Qed.

Lemma int_mem_In (x : Z) (l : list Z) :
  Py.int_mem x l = true <-> In x l.
Proof.
  unfold Py.int_mem; rewrite existsb_exists; split.
  - intros [y [Hy E]]; apply Z.eqb_eq in E; now subst.
  - intros H; exists x; split; [exact H | apply Z.eqb_refl].
Qed.

End PyFacts.

(** ** The gateway *)

Lemma complete_unfold (self : OpenAIService) messages t k :
  complete self messages t k =
  match client self (complete_request self messages t k) with
  | Raise e => Raise e
  | Ok response =>
      match choices response with
      | [] => Raise (IndexError "list index out of range")
      | c :: _ =>
          match message_content (message c) with
          | None => Raise (ValueError "OpenAI returned empty response")
          | Some text => Ok (Py.strip text)
          end
      end
  end.
Proof.
  unfold complete, try_except, bind, first_content.
  destruct (client self _) as [response|e]; [|reflexivity].
  destruct (choices response) as [|c cs]; [reflexivity|].
  destruct (message_content (message c)); reflexivity.
Qed.

(** C3, refuted: on a response whose content is the empty string, or only
    whitespace, [complete] does not raise: it returns the empty string. *)
Lemma complete_returns_on_empty_content :
  complete (OpenAIService_init default_settings (answering (Some "")))
           [] None None = Ok "" /\
  complete (OpenAIService_init default_settings (answering (Some "  ")))
           [] None None = Ok "" /\
  ~ raises_on_empty_content.
Proof.
  split; [reflexivity|]. split; [reflexivity|].
  intros R.
  destruct (R (OpenAIService_init default_settings (answering (Some "")))
              [] None None
              (mkCompletion [mkChoice (mkChatMessage (Some ""))])
              eq_refl eq_refl) as [e E].
  discriminate E.
Qed.

(** C3, amended: [complete] returns the remote content stripped of
    surrounding whitespace, also when that leaves the empty string.  It
    raises exactly when the remote call raises, and then it re-raises the
    same exception, or when the response carries no content: [ValueError]
    "OpenAI returned empty response" when the content of the first choice
    is [None], [IndexError] when there is no choice. *)
Theorem complete_returns_unless_content_absent
    (self : OpenAIService) (messages : list MessageDict)
    (t : option Q) (k : option Z) :
  let outcome := complete self messages t k in
  let remote := client self (complete_request self messages t k) in
  (forall e, remote = Raise e -> outcome = Raise e) /\
  (forall response,
     remote = Ok response -> choices response = [] ->
     outcome = Raise (IndexError "list index out of range")) /\
  (forall response c rest,
     remote = Ok response -> choices response = c :: rest ->
     message_content (message c) = None ->
     outcome = Raise (ValueError "OpenAI returned empty response")) /\
  (forall response c rest raw,
     remote = Ok response -> choices response = c :: rest ->
     message_content (message c) = Some raw ->
     outcome = Ok (Py.strip raw)) /\
  (raised outcome <->
     raised remote \/
     exists response, remote = Ok response /\ response_content response = None) /\
  (forall text, outcome = Ok text <->
     exists response raw,
       remote = Ok response /\ response_content response = Some raw /\
       text = Py.strip raw).
Proof.
  cbv zeta. rewrite complete_unfold. unfold response_content, raised.
  destruct (client self _) as [response|e].
  - destruct (choices response) as [|c cs] eqn:Hc.
    + split; [discriminate|]. split; [reflexivity|].
      split; [intros r c rest E; injection E as <-; rewrite Hc; discriminate|].
      split; [intros r c rest raw E; injection E as <-; rewrite Hc; discriminate|].
      split.
      * split; [|eauto]. intros _. right. exists response. now rewrite Hc.
      * intros text. split; [discriminate|].
        intros (r & raw & E & H & _). injection E as <-.
        rewrite Hc in H. discriminate.
    + split; [discriminate|].
      split; [intros r E; injection E as <-; rewrite Hc; discriminate|].
      split.
      { intros r c' rest E H N. injection E as <-. rewrite Hc in H.
        injection H as <- _. now rewrite N. }
      split.
      { intros r c' rest raw E H N. injection E as <-. rewrite Hc in H.
        injection H as <- _. now rewrite N. }
      destruct (message_content (message c)) as [raw|] eqn:Hm.
      * split.
        -- split; [intros [e E]; discriminate|].
           intros [[e E]|(r & E & H)]; [discriminate|].
           injection E as <-. rewrite Hc, Hm in H. discriminate.
        -- intros text. split.
           ++ intros E. injection E as <-. exists response, raw.
              now rewrite Hc, Hm.
           ++ intros (r & raw' & E & H & ->). injection E as <-.
              rewrite Hc, Hm in H. now injection H as <-.
      * split.
        -- split; [|eauto]. intros _. right. exists response.
           now rewrite Hc, Hm.
        -- intros text. split; [discriminate|].
           intros (r & raw & E & H & _). injection E as <-.
           rewrite Hc, Hm in H. discriminate.
  - split; [intros e' E; now injection E as <-|].
    split; [discriminate|]. split; [discriminate|]. split; [discriminate|].
    split.
    + split; [|eauto]. intros _. left. eauto.
    + intros text. split; [discriminate|].
      intros (r & raw & E & _). discriminate.
Qed.

Lemma complete_returns_unless_content_absent_witness :
  complete (OpenAIService_init default_settings (answering (Some "  hello ")))
           [] None None = Ok "hello" /\
  complete (OpenAIService_init default_settings (answering None))
           [] None None = Raise (ValueError "OpenAI returned empty response") /\
  complete (OpenAIService_init default_settings failing)
           [] None None = Raise (OpenAIError "API Error").
Proof.
  split; [|split].
  - refine (proj1 (proj2 (proj2 (proj2 (complete_returns_unless_content_absent
              (OpenAIService_init default_settings (answering (Some "  hello ")))
              [] None None))))
              _ (mkChoice (mkChatMessage (Some "  hello "))) [] "  hello "
              eq_refl eq_refl eq_refl).
  - refine (proj1 (proj2 (proj2 (complete_returns_unless_content_absent
              (OpenAIService_init default_settings (answering None))
              [] None None)))
              _ (mkChoice (mkChatMessage None)) [] eq_refl eq_refl eq_refl).
  - refine (proj1 (complete_returns_unless_content_absent
              (OpenAIService_init default_settings failing) [] None None)
              _ eq_refl).
Defined.

(** What [analyze_intent] does once [complete] has an outcome. *)
Lemma analyze_intent_unfold (self : OpenAIService) text history :
  analyze_intent self text history =
  match complete self (analyze_intent_messages text history)
                 (Some 0%Q) (Some 20%Z) with
  | Raise _ => Ok "general"
  | Ok reply =>
      if Py.str_mem (Py.strip (Py.lower reply))
                    ["create_post"; "edit_image"; "general"]
      then Ok (Py.strip (Py.lower reply))
      else Ok "general"
  end.
Proof.
  unfold analyze_intent, try_except, bind.
  destruct (complete self _ _ _) as [reply|e]; [|reflexivity].
  destruct (Py.str_mem _ _); reflexivity.
Qed.

Lemma analyze_image_intent_unfold (self : OpenAIService) caption :
  analyze_image_intent self caption =
  match complete self [mkMessage "system" image_intent_system_prompt;
                       mkMessage "user" caption]
                 (Some 0%Q) (Some 20%Z) with
  | Raise _ => Ok "edit_only"
  | Ok reply =>
      if Py.str_mem (Py.strip (Py.lower reply)) ["edit_only"; "post_only"; "both"]
      then Ok (Py.strip (Py.lower reply))
      else Ok "edit_only"
  end.
Proof.
  unfold analyze_image_intent, try_except, bind.
  destruct (complete self _ _ _) as [reply|e]; [|reflexivity].
  destruct (Py.str_mem _ _); reflexivity.
Qed.

(** The classification request is built as the sources say: the fixed
    classifier prompt, the last three turns, the live message. *)
Lemma analyze_intent_messages_shape text history :
  analyze_intent_messages text history =
  (mkMessage "system" intent_system_prompt
     :: Py.last_n 3 history ++ [mkMessage "user" text])%list /\
  length (Py.last_n 3 history) = Nat.min 3 (length history).
Proof.
  split; [reflexivity|].
  unfold Py.last_n; rewrite length_skipn; lia.
Qed.

(** C4: the request [analyze_intent] sends does not carry temperature 0.
    [complete] computes [temperature or self.temperature], and the argument
    [0.0] is false, so the configured default (0.7) is sent: an endpoint
    that insists on temperature 0 refuses the call and the classification
    falls back to "general". *)
Theorem analyze_intent_sends_configured_temperature
    (text : string) (history : list MessageDict) :
  (forall remote : Client,
     req_temperature
       (complete_request (OpenAIService_init default_settings remote)
                         (analyze_intent_messages text history)
                         (Some 0%Q) (Some 20%Z)) = (7 # 10)%Q) /\
  analyze_intent (OpenAIService_init default_settings zero_temperature_only)
                 text history = Ok "general".
Proof.
  split; [intros remote|]; reflexivity.
Qed.

(** Whatever the settings, the temperature argument 0 is replaced by the
    configured one. *)
Lemma complete_request_zero_temperature (self : OpenAIService) messages k :
  req_temperature (complete_request self messages (Some 0%Q) k) = temperature self.
Proof. reflexivity. Qed.

(** C7: classification fails open.  [analyze_intent] and
    [analyze_image_intent] always return, never raise, and return a valid
    intent; when the completion raises or its lower-cased, stripped reply is
    not a valid intent they return "general", resp. "edit_only". *)
Theorem classification_fails_open
    (self : OpenAIService) (text caption : string) (history : list MessageDict) :
  let text_outcome :=
    complete self (analyze_intent_messages text history) (Some 0%Q) (Some 20%Z) in
  let image_outcome :=
    complete self [mkMessage "system" image_intent_system_prompt;
                   mkMessage "user" caption] (Some 0%Q) (Some 20%Z) in
  (exists intent, analyze_intent self text history = Ok intent /\
                  In intent ["create_post"; "edit_image"; "general"]) /\
  (exists intent, analyze_image_intent self caption = Ok intent /\
                  In intent ["edit_only"; "post_only"; "both"]) /\
  (raised text_outcome -> analyze_intent self text history = Ok "general") /\
  (forall reply, text_outcome = Ok reply ->
     ~ In (Py.strip (Py.lower reply)) ["create_post"; "edit_image"; "general"] ->
     analyze_intent self text history = Ok "general") /\
  (raised image_outcome -> analyze_image_intent self caption = Ok "edit_only") /\
  (forall reply, image_outcome = Ok reply ->
     ~ In (Py.strip (Py.lower reply)) ["edit_only"; "post_only"; "both"] ->
     analyze_image_intent self caption = Ok "edit_only").
Proof.
  cbv zeta.
  rewrite analyze_intent_unfold, analyze_image_intent_unfold.
  repeat split.
  - destruct (complete self (analyze_intent_messages _ _) _ _) as [reply|e].
    + destruct (Py.str_mem _ _) eqn:M.
      * exists (Py.strip (Py.lower reply)); split; [reflexivity|].
        now apply str_mem_In.
      * exists "general"; split; [reflexivity | simpl; auto].
    + exists "general"; split; [reflexivity | simpl; auto].
  - destruct (complete self [_; _] _ _) as [reply|e].
    + destruct (Py.str_mem _ _) eqn:M.
      * exists (Py.strip (Py.lower reply)); split; [reflexivity|].
        now apply str_mem_In.
      * exists "edit_only"; split; [reflexivity | simpl; auto].
    + exists "edit_only"; split; [reflexivity | simpl; auto].
  - intros [e ->]; reflexivity.
  - intros reply -> H.
    destruct (Py.str_mem _ _) eqn:M; [|reflexivity].
    apply str_mem_In in M; contradiction.
  - intros [e ->]; reflexivity.
  - intros reply -> H.
    destruct (Py.str_mem _ _) eqn:M; [|reflexivity].
    apply str_mem_In in M; contradiction.
Qed.

Lemma classification_fails_open_witness :
  analyze_intent (OpenAIService_init default_settings failing) "hi" [] = Ok "general" /\
  analyze_image_intent (OpenAIService_init default_settings (answering (Some "crop it")))
                       "crop it" = Ok "edit_only".
Proof.
  split.
  - apply (classification_fails_open
             (OpenAIService_init default_settings failing) "hi" "" []).
    exists (OpenAIError "API Error"); reflexivity.
  - apply (classification_fails_open
             (OpenAIService_init default_settings (answering (Some "crop it")))
             "" "crop it" [])
      with (reply := "crop it").
    + reflexivity.
    + simpl; intros [H|[H|[H|[]]]]; discriminate.
Defined.

(** ** The generators *)

Lemma enforce_limit_length (post : string) :
  Py.len (XAgent.enforce_limit post) <= 280.
Proof.
  unfold XAgent.enforce_limit, XAgent.MAX_LENGTH.
  destruct (280 <? Py.len post)%nat eqn:E.
  - apply Nat.ltb_lt in E.
    rewrite length_append, length_slice_to.
    change (Py.len "...") with 3; change (280 - 3) with 277; lia.
  - apply Nat.ltb_ge in E; exact E.
Qed.

(** C2: whatever the completion, the post [XAgent.create_post] returns has
    at most 280 characters (code points, as [len] counts them); a
    completion longer than 280 characters comes back as its first 277
    characters followed by "...", 280 characters in all, a shorter one
    unchanged. *)
Theorem x_create_post_within_limit
    (openai : OpenAIService) (prompt : string) (history : list MessageDict)
    (completion : string) :
  complete openai (agent_messages XAgent.system_prompt prompt history)
           (Some (7 # 10)%Q) (Some 150%Z) = Ok completion ->
  exists post,
    XAgent.create_post openai prompt history = Ok post /\
    Py.len post <= 280 /\
    (280 < Py.len completion ->
       post = Py.slice_to 277 completion ++ "..." /\ Py.len post = 280) /\
    (Py.len completion <= 280 -> post = completion).
Proof.
  intros H. exists (XAgent.enforce_limit completion).
  split; [unfold XAgent.create_post, try_except, bind; now rewrite H|].
  split; [apply enforce_limit_length|].
  unfold XAgent.enforce_limit, XAgent.MAX_LENGTH; split; intros L.
  - apply Nat.ltb_lt in L as L'; rewrite L'; split; [reflexivity|].
    rewrite length_append, length_slice_to.
    change (Py.len "...") with 3; change (280 - 3) with 277; lia.
  - apply Nat.ltb_ge in L; now rewrite L.
Qed.

Lemma x_create_post_within_limit_witness :
  exists post,
    XAgent.create_post
      (OpenAIService_init default_settings (answering (Some three_hundred_As)))
      "Create a tweet" [] = Ok post /\
    Py.len post <= 280 /\
    (280 < Py.len three_hundred_As ->
       post = Py.slice_to 277 three_hundred_As ++ "..." /\
       Py.len post = 280) /\
    (Py.len three_hundred_As <= 280 -> post = three_hundred_As).
Proof.
  apply (x_create_post_within_limit
           (OpenAIService_init default_settings (answering (Some three_hundred_As)))
           "Create a tweet" [] three_hundred_As).
  vm_compute; reflexivity.
Defined.

(** The limit counts characters, not bytes: 200 characters in 300 bytes are
    within it and come back unchanged. *)
Lemma x_create_post_counts_characters :
  String.length two_hundred_characters = 300 /\
  Py.len two_hundred_characters = 200 /\
  XAgent.create_post
    (OpenAIService_init default_settings (answering (Some two_hundred_characters)))
    "Create a tweet" [] = Ok two_hundred_characters.
Proof. repeat split; vm_compute; reflexivity. Qed.

(** C9: the School post-processing appends the fixed signature line, a
    blank line then "Love an automation," and "Jack", exactly when the
    marker "Love an automation" is absent from the completion, leaves the
    completion unchanged when it is present, and is idempotent. *)
Theorem school_signature_idempotent
    (openai : OpenAIService) (prompt : string) (history : list MessageDict)
    (completion : string) :
  complete openai (agent_messages SchoolAgent.system_prompt prompt history)
           (Some (7 # 10)%Q) (Some 700%Z) = Ok completion ->
  let signed := completion ++ "

Love an automation,
Jack" in
  SchoolAgent.create_post openai prompt history
    = Ok (SchoolAgent.add_signature completion) /\
  (Py.str_in "Love an automation" completion = false ->
     SchoolAgent.add_signature completion = signed /\
     SchoolAgent.create_post openai prompt history = Ok signed) /\
  (Py.str_in "Love an automation" completion = true ->
     SchoolAgent.add_signature completion = completion /\
     SchoolAgent.create_post openai prompt history = Ok completion) /\
  (SchoolAgent.add_signature completion = signed
     \/ SchoolAgent.add_signature completion = completion) /\
  SchoolAgent.add_signature signed = signed /\
  SchoolAgent.add_signature (SchoolAgent.add_signature completion)
    = SchoolAgent.add_signature completion.
Proof.
  intros H. cbv zeta.
  assert (SchoolAgent.create_post openai prompt history
          = Ok (SchoolAgent.add_signature completion)) as C
    by (unfold SchoolAgent.create_post, try_except, bind; now rewrite H).
  assert (forall post,
             SchoolAgent.add_signature post
             = if Py.str_in "Love an automation" post then post
               else post ++ "

Love an automation,
Jack") as A.
  { intros post. unfold SchoolAgent.add_signature, SchoolAgent.signature_marker.
    destruct (Py.str_in "Love an automation" post); reflexivity. }
  assert (forall post,
             Py.str_in "Love an automation" (post ++ "

Love an automation,
Jack") = true) as S
    by (intros post; apply str_in_append_r; reflexivity).
  split; [exact C|]. rewrite C, !A.
  destruct (Py.str_in "Love an automation" completion) eqn:E.
  - rewrite E, S.
    split; [discriminate|]. split; [intros _; split; reflexivity|].
    split; [now right|]. split; reflexivity.
  - rewrite !S.
    split; [intros _; split; reflexivity|]. split; [discriminate|].
    split; [now left|]. split; reflexivity.
Qed.

Lemma school_signature_idempotent_witness :
  SchoolAgent.create_post
    (OpenAIService_init default_settings
       (answering (Some "Hey everyone! Let's discuss AI automation.")))
    "Create a post about AI" []
  = Ok "Hey everyone! Let's discuss AI automation.

Love an automation,
Jack".
Proof.
  refine (proj2 (proj1 (proj2 (school_signature_idempotent
            (OpenAIService_init default_settings
               (answering (Some "Hey everyone! Let's discuss AI automation.")))
            "Create a post about AI" []
            "Hey everyone! Let's discuss AI automation." _)) _)).
  - vm_compute; reflexivity.
  - vm_compute; reflexivity.
Defined.

(** ** Platform detection *)

Lemma detect_platforms_unfold (self : OpenAIService) prompt :
  detect_platforms self prompt =
  match complete self (detect_messages prompt) (Some 0%Q) (Some 50%Z) with
  | Raise _ => Ok []
  | Ok reply =>
      if String.eqb (Py.strip (Py.lower reply)) "none" then Ok []
      else Ok (normalize_platforms (reply_tokens reply))
  end.
Proof.
  unfold detect_platforms, detect_messages, try_except, bind.
  destruct (complete self _ _ _) as [reply|e]; [|reflexivity].
  destruct (String.eqb _ _); reflexivity.
Qed.

Lemma normalize_platforms_flat_map (tokens : list string) :
  normalize_platforms tokens = flat_map spec_keep_token tokens.
Proof.
  unfold normalize_platforms.
  induction tokens as [|t ts IH]; [reflexivity|].
  cbn [filter flat_map]. unfold spec_keep_token at 1.
  destruct (String.eqb t "twitter") eqn:Et.
  - apply String.eqb_eq in Et; subst t.
    change (Py.str_mem "twitter" valid_platforms) with true.
    cbn [map app]. rewrite IH. reflexivity.
  - assert (Py.str_mem t valid_platforms = Py.str_mem t supported_platforms) as ->.
    { unfold Py.str_mem, valid_platforms, supported_platforms.
      cbn [existsb]. rewrite Et; reflexivity. }
    destruct (Py.str_mem t supported_platforms); cbn [map app].
    + now rewrite Et, IH.
    + exact IH.
Qed.

Lemma normalize_platforms_supported (tokens : list string) (p : string) :
  In p (normalize_platforms tokens) -> In p supported_platforms.
Proof.
  rewrite normalize_platforms_flat_map, in_flat_map.
  intros (t & _ & H). unfold spec_keep_token in H.
  destruct (String.eqb t "twitter").
  - destruct H as [<-|[]]; simpl; auto.
  - destruct (Py.str_mem t supported_platforms) eqn:M; [|contradiction].
    destruct H as [<-|[]]. now apply str_mem_In.
Qed.

(** C6: [detect_platforms] always returns.  It returns the empty list when
    the completion raises and when the reply is "none"; otherwise it goes
    through the comma-separated tokens of the reply in order, drops every
    token that is not a known platform name, turns "twitter" into "x" and
    keeps the other known names unchanged, so that only supported platform
    names come out. *)
Theorem detect_platforms_parses_reply (self : OpenAIService) (prompt : string) :
  let outcome := complete self (detect_messages prompt) (Some 0%Q) (Some 50%Z) in
  (raised outcome -> detect_platforms self prompt = Ok []) /\
  (outcome = Ok "none" -> detect_platforms self prompt = Ok []) /\
  (forall reply, outcome = Ok reply ->
     exists platforms,
       detect_platforms self prompt = Ok platforms /\
       (forall p, In p platforms -> In p supported_platforms) /\
       (Py.strip (Py.lower reply) <> "none" ->
          platforms = flat_map spec_keep_token (reply_tokens reply) /\
          (forall p, In p platforms <->
             In p supported_platforms /\
             (In p (reply_tokens reply) \/
              p = "x" /\ In "twitter" (reply_tokens reply))))).
Proof.
  cbv zeta. rewrite detect_platforms_unfold. repeat split.
  - intros [e ->]; reflexivity.
  - intros ->; reflexivity.
  - intros reply ->.
    destruct (String.eqb (Py.strip (Py.lower reply)) "none") eqn:E.
    + exists []. split; [reflexivity|]. split; [intros p []|].
      apply String.eqb_eq in E; intros N; contradiction.
    + exists (normalize_platforms (reply_tokens reply)).
      split; [reflexivity|].
      split; [apply normalize_platforms_supported|].
      intros _. split; [apply normalize_platforms_flat_map|].
      intros p; split.
      * intros H. split; [eapply normalize_platforms_supported; eauto|].
        rewrite normalize_platforms_flat_map, in_flat_map in H.
        destruct H as (t & Ht & H). unfold spec_keep_token in H.
        destruct (String.eqb t "twitter") eqn:Et.
        -- apply String.eqb_eq in Et; subst t.
           destruct H as [<-|[]]; auto.
        -- destruct (Py.str_mem t supported_platforms); [|contradiction].
           destruct H as [<-|[]]; auto.
      * intros [S H].
        rewrite normalize_platforms_flat_map, in_flat_map.
        destruct H as [H | [-> H]].
        -- exists p; split; [exact H|]. unfold spec_keep_token.
           apply str_mem_In in S as M.
           destruct (String.eqb p "twitter") eqn:Et.
           ++ apply String.eqb_eq in Et; subst p.
              simpl in S; repeat (destruct S as [S|S]; try discriminate); contradiction.
           ++ rewrite M; simpl; auto.
        -- exists "twitter"; split; [exact H | simpl; auto].
Qed.

Lemma detect_platforms_parses_reply_witness :
  exists platforms,
    detect_platforms
      (OpenAIService_init default_settings
         (answering (Some "Twitter, LinkedIn ,tiktok,school")))
      "posts please" = Ok platforms /\
    (forall p, In p platforms -> In p supported_platforms) /\
    platforms = ["x"; "linkedin"; "school"].
Proof.
  destruct (proj2 (proj2 (detect_platforms_parses_reply
              (OpenAIService_init default_settings
                 (answering (Some "Twitter, LinkedIn ,tiktok,school")))
              "posts please"))
              "Twitter, LinkedIn ,tiktok,school" eq_refl)
    as (platforms & D & S & H).
  exists platforms; split; [exact D|]; split; [exact S|].
  apply H. vm_compute; discriminate.
Defined.

(** ** The fan-out coordinator *)

Lemma collect_tasks_from (self : PostCreatorAgent) prompt history
    (platforms : list string) tasks names :
  fold_left
    (fun (acc : list (result string) * list string) platform =>
       let (tasks, platform_names) := acc in
       match dict_get (agents self) (Py.lower platform) with
       | Some agent =>
           ((tasks ++ [create_post agent prompt history])%list,
            (platform_names ++ [display_name platform])%list)
       | None => acc
       end)
    platforms (tasks, names)
  = ((tasks ++ map (task_of prompt history) (recognized self platforms))%list,
     (names ++ map (fun e => display_name (fst e))
                   (recognized self platforms))%list).
Proof.
  revert tasks names.
  induction platforms as [|p ps IH]; intros tasks names.
  - simpl. now rewrite !app_nil_r.
  - cbn [fold_left]. unfold recognized at 1 2. cbn [flat_map].
    fold (recognized self ps).
    destruct (dict_get (agents self) (Py.lower p)) as [agent|].
    + rewrite IH. cbn [app map]. unfold task_of at 2. cbn [fst snd].
      now rewrite <- !app_assoc.
    + rewrite IH. reflexivity.
Qed.

Lemma collect_tasks_recognized (self : PostCreatorAgent) prompt history
    (platforms : list string) :
  collect_tasks self prompt history platforms
  = (map (task_of prompt history) (recognized self platforms),
     map (fun e => display_name (fst e)) (recognized self platforms)).
Proof. unfold collect_tasks. now rewrite collect_tasks_from. Qed.

Lemma response_parts_from (entries : list (string * result string)) parts :
  fold_left
    (fun parts (entry : string * result string) =>
       let (platform_name, result) := entry in
       match result with
       | Raise _ => (parts ++ [error_block platform_name])%list
       | Ok content => (parts ++ [success_block platform_name content])%list
       end)
    entries parts
  = (parts ++ map format_block entries)%list.
Proof.
  revert parts; induction entries as [|[name r] es IH]; intros parts.
  - simpl. now rewrite app_nil_r.
  - cbn [fold_left map]. unfold format_block at 2. cbn [fst snd].
    destruct r; rewrite IH, <- app_assoc; reflexivity.
Qed.

Lemma response_parts_blocks names results :
  response_parts names results
  = header :: map format_block (combine names results).
Proof. unfold response_parts. now rewrite response_parts_from. Qed.

Lemma combine_map_map {A B C} (f : A -> B) (g : A -> C) (l : list A) :
  combine (map f l) (map g l) = map (fun a => (f a, g a)) l.
Proof. induction l as [|a l IH]; simpl; [reflexivity | now rewrite IH]. Qed.

(** The reply for a non-empty detected list: the header, then the block of
    each recognized entry. *)
Lemma create_posts_for_blocks (self : PostCreatorAgent) prompt history
    (platforms : list string) :
  platforms <> [] ->
  create_posts_for self prompt history platforms
  = Py.join Py.nl
      (header :: map (block_of prompt history) (recognized self platforms)).
Proof.
  intros NE. unfold create_posts_for.
  destruct platforms as [|p ps]; [contradiction|].
  rewrite collect_tasks_recognized. unfold gather_return_exceptions.
  rewrite response_parts_blocks, combine_map_map, map_map.
  reflexivity.
Qed.

Lemma recognized_names (self : PostCreatorAgent) (platforms : list string) :
  map fst (recognized self platforms)
  = filter (has_agent self) platforms.
Proof.
  induction platforms as [|p ps IH]; [reflexivity|].
  unfold recognized, has_agent; cbn [flat_map filter].
  fold (recognized self ps). fold (has_agent self).
  destruct (dict_get (agents self) (Py.lower p)); cbn [app map fst];
    now rewrite IH.
Qed.

Lemma recognized_complete (self : PostCreatorAgent) (platforms : list string)
    platform agent :
  In platform platforms ->
  dict_get (agents self) (Py.lower platform) = Some agent ->
  In (platform, agent) (recognized self platforms).
Proof.
  intros HIn Hget. unfold recognized. apply in_flat_map.
  exists platform; split; [exact HIn|]. rewrite Hget; simpl; auto.
Qed.

(** C1, refuted: a platform that occurs twice in the detected list gets two
    blocks.  On the classifier reply "x, x" the reply of [create_posts]
    carries the X block twice. *)
Lemma repeated_platform_gets_two_blocks :
  create_posts
    (PostCreatorAgent_init (OpenAIService_init default_settings names_x_again))
    "tweet this" []
  = Ok "✨ **Generated Posts**


📱 **X**
Hello X


📱 **X**
Hello X
" /\
  ~ one_block_per_platform.
Proof.
  split; [reflexivity|].
  intros U.
  specialize (U (PostCreatorAgent_init
                   (OpenAIService_init default_settings names_x_again))
                "tweet this" [] ["x"; "x"]).
  assert (NoDup ["X"; "X"]) as N by (apply U; discriminate).
  inversion N as [|? ? NI _]; subst. apply NI; simpl; auto.
Qed.

(** C1, amended: for a non-empty detected list the reply of [create_posts]
    is the header line followed by one labelled block for each recognized
    entry of the list, in detection order, an entry that occurs twice
    having two blocks.  The block of an entry is decided by that entry's
    generator alone, whatever the other generators do: the label line
    "📱 **<label>**" and the content when the generator returns, the line
    "❌ **<label>**: Error generating post" when it raises; and every entry
    that has an agent has its block. *)
Theorem create_posts_one_block_per_entry
    (self : PostCreatorAgent) (prompt : string) (history : list MessageDict)
    (platforms : list string) :
  platforms <> [] ->
  exists blocks,
    let reply := Py.join "
" ("✨ **Generated Posts**
" :: blocks) in
    create_posts_for self prompt history platforms = reply /\
    (detect_platforms (openai self) prompt = Ok platforms ->
       create_posts self prompt history = Ok reply) /\
    length blocks = length (recognized self platforms) /\
    map fst (recognized self platforms)
      = filter (has_agent self) platforms /\
    (forall i platform agent,
       nth_error (recognized self platforms) i = Some (platform, agent) ->
       dict_get (agents self) (Py.lower platform) = Some agent /\
       (forall content,
          create_post agent prompt history = Ok content ->
          nth_error blocks i
            = Some ("
📱 **" ++ display_name platform ++ "**
" ++ content ++ "
")) /\
       (raised (create_post agent prompt history) ->
          nth_error blocks i
            = Some ("
❌ **" ++ display_name platform ++ "**: Error generating post
"))) /\
    (forall platform agent,
       In platform platforms ->
       dict_get (agents self) (Py.lower platform) = Some agent ->
       exists i block,
         nth_error (recognized self platforms) i = Some (platform, agent) /\
         nth_error blocks i = Some block).
Proof.
  intros NE.
  exists (map (block_of prompt history) (recognized self platforms)).
  pose proof (create_posts_for_blocks self prompt history platforms NE) as E.
  cbv zeta.
  split; [exact E|].
  split; [intros D; unfold create_posts, bind; rewrite D, E; reflexivity|].
  split; [apply length_map|].
  split; [apply recognized_names|].
  split.
  - intros i platform agent Hi.
    assert (In (platform, agent) (recognized self platforms)) as HIn
      by (eapply nth_error_In; eauto).
    split.
    + unfold recognized in HIn. apply in_flat_map in HIn.
      destruct HIn as (p & _ & H).
      destruct (dict_get (agents self) (Py.lower p)) as [a|] eqn:G;
        [|contradiction].
      destruct H as [H|[]]. now injection H as <- <-.
    + split.
      * intros content Hc. rewrite (map_nth_error _ _ _ Hi).
        unfold block_of, format_block, task_of; cbn [fst snd].
        rewrite Hc. reflexivity.
      * intros [e He]. rewrite (map_nth_error _ _ _ Hi).
        unfold block_of, format_block, task_of; cbn [fst snd].
        rewrite He. reflexivity.
  - intros platform agent HIn Hget.
    destruct (In_nth_error _ _
                (recognized_complete self platforms platform agent HIn Hget))
      as [i Hi].
    exists i, (block_of prompt history (platform, agent)).
    split; [exact Hi|]. now rewrite (map_nth_error _ _ _ Hi).
Qed.

Lemma create_posts_one_block_per_entry_witness :
  create_posts
    (PostCreatorAgent_init
       (OpenAIService_init default_settings x_down_linkedin_up))
    "Create posts for X and LinkedIn" []
  = Ok "✨ **Generated Posts**


❌ **X**: Error generating post


📱 **Linkedin**
Here's a post...
".
Proof.
  destruct (create_posts_one_block_per_entry
              (PostCreatorAgent_init
                 (OpenAIService_init default_settings x_down_linkedin_up))
              "Create posts for X and LinkedIn" [] ["x"; "linkedin"])
    as (blocks & _ & D & L & _ & B & _).
  - discriminate.
  - rewrite (D eq_refl).
    destruct (B 0 "x"
                (XAgent.new (OpenAIService_init default_settings x_down_linkedin_up))
                eq_refl) as (_ & _ & B0).
    destruct (B 1 "linkedin"
                (LinkedInAgent.new
                   (OpenAIService_init default_settings x_down_linkedin_up))
                eq_refl) as (_ & B1 & _).
    specialize (B0 (ex_intro _ (OpenAIError "API Error") eq_refl)).
    specialize (B1 "Here's a post..." eq_refl).
    destruct blocks as [|b0 [|b1 [|b2 bs]]]; try discriminate L.
    injection B0 as ->. injection B1 as ->. reflexivity.
Defined.

(** C5, refuted: on the classifier reply "twitter,x" the detected list is
    [x, x], the X generator is invoked twice and the reply has two X blocks. *)
Lemma alias_duplicates_generate_twice :
  let self := PostCreatorAgent_init
                (OpenAIService_init default_settings names_x_twice) in
  detect_platforms (openai self) "tweet this" = Ok ["x"; "x"] /\
  length (fst (collect_tasks self "tweet this" [] ["x"; "x"])) = 2 /\
  snd (collect_tasks self "tweet this" [] ["x"; "x"]) = ["X"; "X"] /\
  create_posts self "tweet this" []
    = Ok (Py.join Py.nl [header; success_block "X" "Hello X";
                         success_block "X" "Hello X"]) /\
  ~ deduplicates_aliases.
Proof.
  cbv zeta. repeat split; try reflexivity.
  intros D.
  destruct (D (PostCreatorAgent_init
                 (OpenAIService_init default_settings names_x_twice))
              "tweet this" [] ["x"; "x"] eq_refl) as [N _].
  inversion N as [|? ? NI _]; subst. apply NI; simpl; auto.
Qed.

(** C5, amended: "twitter" is renamed to "x" and nothing is removed.  The
    detected list has one entry for each valid token of the reply, and the
    coordinator makes one generator call and one block for each recognized
    entry of the detected list, repetitions included. *)
Theorem fan_out_keeps_repetitions
    (self : PostCreatorAgent) (prompt : string) (history : list MessageDict)
    (platforms tokens : list string) :
  let selected :=
    filter (has_agent self) platforms in
  let tasks := fst (collect_tasks self prompt history platforms) in
  let names := snd (collect_tasks self prompt history platforms) in
  length (normalize_platforms tokens)
    = length (filter (fun t => Py.str_mem t valid_platforms) tokens) /\
  length tasks = length selected /\
  names = map display_name selected /\
  response_parts names (gather_return_exceptions tasks)
    = header :: map (block_of prompt history) (recognized self platforms) /\
  length (response_parts names (gather_return_exceptions tasks))
    = S (length selected).
Proof.
  cbv zeta. rewrite collect_tasks_recognized; cbn [fst snd].
  rewrite response_parts_blocks. unfold gather_return_exceptions.
  rewrite combine_map_map.
  assert (length (recognized self platforms)
          = length (filter (has_agent self) platforms)) as L.
  { rewrite <- recognized_names. now rewrite length_map. }
  repeat split.
  - unfold normalize_platforms. apply length_map.
  - now rewrite length_map.
  - rewrite <- recognized_names, map_map. reflexivity.
  - now rewrite map_map.
  - cbn [length]. now rewrite !length_map, L.
Qed.

(** ** History retrieval *)






(** ** Authorization *)

(** C10: once the allow-list setting parses, the check returns, and it
    accepts every user when the list is empty and exactly the listed users
    when it is not; an unset allow-list setting parses to the empty list. *)
Theorem check_authorization_allow_list
    (settings : Settings) (ids : list Z) :
  allowed_user_ids settings = Ok ids ->
  (ids = [] -> forall user_id, _check_authorization settings user_id = Ok true) /\
  (ids <> [] ->
     forall user_id,
       exists verdict,
         _check_authorization settings user_id = Ok verdict /\
         (verdict = true <-> In user_id ids)) /\
  allowed_user_ids default_settings = Ok [].
Proof.
  intros P.
  assert (forall user_id,
             _check_authorization settings user_id
             = Ok (match ids with [] => true | _ => Py.int_mem user_id ids end))
    as E.
  { intros user_id.
    unfold _check_authorization, is_user_whitelist_enabled, bind.
    rewrite P. destruct ids; reflexivity. }
  repeat split.
  - intros -> user_id. apply E.
  - intros NE user_id. exists (Py.int_mem user_id ids).
    split; [|apply int_mem_In].
    rewrite E. destruct ids; [contradiction | reflexivity].
Qed.

Lemma check_authorization_allow_list_witness :
  (forall user_id,
      _check_authorization default_settings user_id = Ok true) /\
  (exists verdict,
      _check_authorization
        (mkSettings "111, 222" "gpt-4-turbo-preview" (7 # 10)%Q 800 10) 222
      = Ok verdict /\ (verdict = true <-> In 222%Z [111%Z; 222%Z])) /\
  (exists verdict,
      _check_authorization
        (mkSettings "111, 222" "gpt-4-turbo-preview" (7 # 10)%Q 800 10) 333
      = Ok verdict /\ (verdict = true <-> In 333%Z [111%Z; 222%Z])).
Proof.
  split; [|split].
  - apply (check_authorization_allow_list default_settings [] eq_refl).
    reflexivity.
  - apply (check_authorization_allow_list
             (mkSettings "111, 222" "gpt-4-turbo-preview" (7 # 10)%Q 800 10)
             [111%Z; 222%Z] eq_refl).
    discriminate.
  - apply (check_authorization_allow_list
             (mkSettings "111, 222" "gpt-4-turbo-preview" (7 # 10)%Q 800 10)
             [111%Z; 222%Z] eq_refl).
    discriminate.
Defined.

(** * Further properties *)

(** ** The gateway and the generators *)

Lemma complete_raises_with_remote (self : OpenAIService) messages t k e :
  client self (complete_request self messages t k) = Raise e ->
  complete self messages t k = Raise e.
Proof. intros H. rewrite complete_unfold, H. reflexivity. Qed.

(** X1: a temperature argument of 0, and a [max_tokens] argument of 0, are
    treated by [complete] as absent: the outcome is the one obtained with
    the configured defaults; any other argument is sent as given. *)
Theorem complete_zero_arguments_are_ignored
    (self : OpenAIService) (messages : list MessageDict)
    (t : option Q) (k : option Z) :
  complete self messages (Some 0%Q) k = complete self messages None k /\
  complete self messages t (Some 0%Z) = complete self messages t None /\
  (forall x, Py.float_truthy x = true ->
     req_temperature (complete_request self messages (Some x) k) = x) /\
  (forall n, n <> 0%Z ->
     req_max_tokens (complete_request self messages t (Some n)) = n) /\
  req_temperature (complete_request self messages None k) = temperature self /\
  req_max_tokens (complete_request self messages t None) = max_tokens self.
Proof.
  repeat split.
  - intros x H. unfold complete_request, Py.float_or; cbn [req_temperature].
    now rewrite H.
  - intros n H. unfold complete_request, Py.int_or, Py.int_truthy;
      cbn [req_max_tokens].
    apply Z.eqb_neq in H. now rewrite H.
Qed.

Lemma complete_zero_arguments_are_ignored_witness :
  req_temperature
    (complete_request (OpenAIService_init default_settings failing) []
                      (Some (1 # 5)%Q) None) = (1 # 5)%Q /\
  req_max_tokens
    (complete_request (OpenAIService_init default_settings failing) []
                      None (Some 20%Z)) = 20%Z.
Proof.
  split.
  - apply (complete_zero_arguments_are_ignored
             (OpenAIService_init default_settings failing) [] None None).
    reflexivity.
  - apply (complete_zero_arguments_are_ignored
             (OpenAIService_init default_settings failing) [] None None).
    discriminate.
Defined.

(** X2: no generator recovers from a gateway failure: the exception
    [complete] raises is the one [create_post] raises; and the LinkedIn,
    Instagram and YouTube generators return the completion untouched. *)
Theorem generators_propagate_gateway_failures
    (openai : OpenAIService) (prompt : string) (history : list MessageDict) :
  let outcome system_prompt k :=
    complete openai (agent_messages system_prompt prompt history)
             (Some (7 # 10)%Q) (Some k) in
  (forall e, outcome XAgent.system_prompt 150%Z = Raise e ->
             XAgent.create_post openai prompt history = Raise e) /\
  (forall e, outcome SchoolAgent.system_prompt 700%Z = Raise e ->
             SchoolAgent.create_post openai prompt history = Raise e) /\
  LinkedInAgent.create_post openai prompt history
    = outcome LinkedInAgent.system_prompt 800%Z /\
  InstagramAgent.create_post openai prompt history
    = outcome InstagramAgent.system_prompt 600%Z /\
  YouTubeAgent.create_post openai prompt history
    = outcome YouTubeAgent.system_prompt 800%Z.
Proof.
  cbv zeta. split; [|split; [|split; [|split]]].
  - intros e H. unfold XAgent.create_post, try_except, bind. now rewrite H.
  - intros e H. unfold SchoolAgent.create_post, try_except, bind. now rewrite H.
  - unfold LinkedInAgent.create_post, try_except, bind.
    destruct (complete openai _ _ _); reflexivity.
  - unfold InstagramAgent.create_post, try_except, bind.
    destruct (complete openai _ _ _); reflexivity.
  - unfold YouTubeAgent.create_post, try_except, bind.
    destruct (complete openai _ _ _); reflexivity.
Qed.

Lemma generators_propagate_gateway_failures_witness :
  XAgent.create_post (OpenAIService_init default_settings failing) "hi" []
    = Raise (OpenAIError "API Error") /\
  SchoolAgent.create_post (OpenAIService_init default_settings failing) "hi" []
    = Raise (OpenAIError "API Error").
Proof.
  split.
  - apply (proj1 (generators_propagate_gateway_failures
                    (OpenAIService_init default_settings failing) "hi" [])).
    reflexivity.
  - apply (proj1 (proj2 (generators_propagate_gateway_failures
                           (OpenAIService_init default_settings failing) "hi" []))).
    reflexivity.
Defined.

Lemma slice_to_append_long (n : nat) (s t : string) :
  Py.slice_to 0 t = "" ->
  n <= Py.len s ->
  Py.slice_to n (Py.slice_to n s ++ t) = Py.slice_to n s.
Proof.
  intros T. revert n; induction s as [|c s IH]; intros n L.
  - cbn [Py.len] in L. assert (n = 0) as -> by lia. exact T.
  - cbn [Py.len] in L. cbn [Py.slice_to].
    destruct (Py.is_continuation c) eqn:E.
    + cbn [append Py.slice_to]. rewrite E, IH; [reflexivity | exact L].
    + destruct n as [|n]; [exact T|].
      cbn [append Py.slice_to]. rewrite E, IH; [reflexivity | lia].
Qed.

(** X3: enforcing the X limit twice changes nothing more, and the first 277
    characters (code points) of the completion are never altered. *)
Theorem enforce_limit_idempotent_keeps_prefix (post : string) :
  XAgent.enforce_limit (XAgent.enforce_limit post) = XAgent.enforce_limit post /\
  Py.slice_to 277 (XAgent.enforce_limit post) = Py.slice_to 277 post.
Proof.
  split.
  - pose proof (enforce_limit_length post) as L.
    unfold XAgent.enforce_limit at 1. unfold XAgent.MAX_LENGTH.
    apply Nat.ltb_ge in L. now rewrite L.
  - unfold XAgent.enforce_limit, XAgent.MAX_LENGTH.
    destruct (280 <? Py.len post)%nat eqn:E; [|reflexivity].
    apply Nat.ltb_lt in E. change (280 - 3) with 277.
    apply slice_to_append_long; [reflexivity | lia].
Qed.

(** ** The coordinator, end to end *)

Lemma detect_platforms_returns (self : OpenAIService) prompt :
  exists platforms,
    detect_platforms self prompt = Ok platforms /\
    forall p, In p platforms -> In p supported_platforms.
Proof.
  rewrite detect_platforms_unfold.
  destruct (complete self _ _ _) as [reply|e].
  - destruct (String.eqb _ _).
    + exists []; split; [reflexivity | intros p []].
    + eexists; split; [reflexivity | apply normalize_platforms_supported].
  - exists []; split; [reflexivity | intros p []].
Qed.

Lemma create_posts_returns (self : PostCreatorAgent) prompt history :
  returned (create_posts self prompt history).
Proof.
  destruct (detect_platforms_returns (openai self) prompt) as (ps & D & _).
  unfold create_posts, bind. rewrite D. eexists; reflexivity.
Qed.

(** X4: [create_posts] never raises.  When the platform classifier fails,
    answers "none" or names no known platform, the reply is the fixed
    "which platform?" text, whatever the agents are. *)
Theorem create_posts_always_replies
    (self : PostCreatorAgent) (prompt : string) (history : list MessageDict) :
  let outcome :=
    complete (openai self) (detect_messages prompt) (Some 0%Q) (Some 50%Z) in
  returned (create_posts self prompt history) /\
  (raised outcome ->
     create_posts self prompt history = Ok _no_platform_response) /\
  (forall reply,
     outcome = Ok reply ->
     (intent_token reply = "none" \/
      forall token, In token (reply_tokens reply) ->
                    ~ In token valid_platforms) ->
     create_posts self prompt history = Ok _no_platform_response).
Proof.
  cbv zeta. split; [apply create_posts_returns|].
  unfold create_posts, bind. rewrite detect_platforms_unfold. split.
  - intros [e ->]. reflexivity.
  - intros reply -> H. unfold intent_token in H.
    destruct (String.eqb (Py.strip (Py.lower reply)) "none") eqn:E;
      [reflexivity|].
    destruct H as [H|H]; [apply String.eqb_neq in E; contradiction|].
    assert (normalize_platforms (reply_tokens reply) = []) as ->; [|reflexivity].
    unfold normalize_platforms.
    induction (reply_tokens reply) as [|t ts IH]; [reflexivity|].
    cbn [filter].
    destruct (Py.str_mem t valid_platforms) eqn:M.
    + apply str_mem_In in M. exfalso. apply (H t); simpl; auto.
    + apply IH. intros token Ht. apply H. simpl; auto.
Qed.

Lemma create_posts_always_replies_witness :
  create_posts
    (PostCreatorAgent_init (OpenAIService_init default_settings failing))
    "Hello" [] = Ok _no_platform_response /\
  create_posts
    (PostCreatorAgent_init
       (OpenAIService_init default_settings (answering (Some "tiktok, mastodon"))))
    "Hello" [] = Ok _no_platform_response.
Proof.
  split.
  - apply (proj1 (proj2 (create_posts_always_replies
             (PostCreatorAgent_init (OpenAIService_init default_settings failing))
             "Hello" []))).
    exists (OpenAIError "API Error"); reflexivity.
  - apply (proj2 (proj2 (create_posts_always_replies
             (PostCreatorAgent_init
                (OpenAIService_init default_settings
                   (answering (Some "tiktok, mastodon"))))
             "Hello" [])) "tiktok, mastodon" eq_refl).
    right. intros token [<-|[<-|[]]]; vm_compute;
      intros H; repeat (destruct H as [H|H]; [discriminate|]); exact H.
Defined.

Lemma filter_all_true {A} (f : A -> bool) (l : list A) :
  (forall a, In a l -> f a = true) -> filter f l = l.
Proof.
  induction l as [|a l IH]; intros H; [reflexivity|].
  simpl. rewrite (H a) by (simpl; auto).
  rewrite IH; [reflexivity | intros b Hb; apply H; simpl; auto].
Qed.

Lemma supported_platform_served (service : OpenAIService) (p : string) :
  In p supported_platforms ->
  has_agent (PostCreatorAgent_init service) p = true /\
  In (display_name p) display_names.
Proof.
  intros H. simpl in H.
  repeat (destruct H as [<-|H]; [split; [reflexivity | simpl; auto 10]|]).
  contradiction.
Qed.

(** X5: with the agents [PostCreatorAgent] builds, every platform that
    [detect_platforms] can return has a generator: no detected entry is
    skipped, the reply has one block for each entry of the detected list,
    and each label is one of X, Linkedin, Instagram, Youtube and School. *)
Theorem detected_platforms_all_served
    (service : OpenAIService) (prompt : string) (history : list MessageDict)
    (platforms : list string) :
  detect_platforms service prompt = Ok platforms ->
  let self := PostCreatorAgent_init service in
  map fst (recognized self platforms) = platforms /\
  length (fst (collect_tasks self prompt history platforms)) = length platforms /\
  snd (collect_tasks self prompt history platforms) = map display_name platforms /\
  (forall name, In name (snd (collect_tasks self prompt history platforms)) ->
                In name display_names) /\
  (platforms <> [] ->
   create_posts self prompt history
     = Ok (Py.join Py.nl
             (header :: map (block_of prompt history) (recognized self platforms)))).
Proof.
  intros D. cbv zeta.
  destruct (detect_platforms_returns service prompt) as (ps & D' & S).
  rewrite D in D'. injection D' as <-.
  assert (map fst (recognized (PostCreatorAgent_init service) platforms)
          = platforms) as R.
  { rewrite recognized_names. apply filter_all_true.
    intros p Hp. now apply supported_platform_served, S. }
  rewrite collect_tasks_recognized; cbn [fst snd].
  split; [exact R|].
  split; [now rewrite length_map, <- (length_map fst), R|].
  assert (map (fun e : string * PlatformAgent => display_name (fst e))
              (recognized (PostCreatorAgent_init service) platforms)
          = map display_name platforms) as N.
  { rewrite <- R at 2. now rewrite map_map. }
  split; [exact N|].
  split.
  - rewrite N. intros name Hn. apply in_map_iff in Hn.
    destruct Hn as (p & <- & Hp).
    now apply (supported_platform_served service), S.
  - intros NE. unfold create_posts, bind. cbn [openai PostCreatorAgent_init].
    rewrite D. now rewrite create_posts_for_blocks.
Qed.

Lemma detected_platforms_all_served_witness :
  snd (collect_tasks
         (PostCreatorAgent_init
            (OpenAIService_init default_settings
               (answering (Some "youtube, twitter, LinkedIn"))))
         "posts" [] ["youtube"; "x"; "linkedin"])
  = map display_name ["youtube"; "x"; "linkedin"].
Proof.
  apply (detected_platforms_all_served
           (OpenAIService_init default_settings
              (answering (Some "youtube, twitter, LinkedIn")))
           "posts" [] ["youtube"; "x"; "linkedin"] eq_refl).
Defined.

(** ** The dialog router *)

Lemma handle_general_unfold (openai : OpenAIService) text history :
  _handle_general_conversation openai text history =
  match complete openai (general_messages text history)
                 (Some (7 # 10)%Q) (Some 500%Z) with
  | Ok reply => Ok reply
  | Raise _ => Ok "I'm sorry, I encountered an error. Please try again."
  end.
Proof.
  unfold _handle_general_conversation, try_except.
  destruct (complete openai _ _ _); reflexivity.
Qed.

(** X6: [process_text] never raises, and it routes on the classifier's
    lower-cased, stripped reply alone: "create_post" goes to the
    coordinator, "edit_image" gets the fixed "upload an image" text, and
    everything else, a failed classification included, goes to the general
    conversation. *)
Theorem process_text_routes_on_intent
    (settings : Settings) (services : SuperAgentServices) (self : SuperAgent)
    (text : string) :
  let history := _get_conversation_history settings self None in
  let outcome :=
    complete (agent_openai services) (analyze_intent_messages text history)
             (Some 0%Q) (Some 20%Z) in
  let general :=
    _handle_general_conversation (agent_openai services) text history in
  returned (process_text settings services self text) /\
  (raised outcome -> process_text settings services self text = general) /\
  (forall reply, outcome = Ok reply ->
     (intent_token reply = "create_post" ->
        process_text settings services self text
          = create_posts (post_creator services) text history) /\
     (intent_token reply = "edit_image" ->
        process_text settings services self text
          = Ok _image_upload_required_response) /\
     (intent_token reply <> "create_post" ->
      intent_token reply <> "edit_image" ->
        process_text settings services self text = general)).
Proof.
  cbv zeta. unfold process_text, bind, intent_token.
  rewrite analyze_intent_unfold, handle_general_unfold.
  set (history := _get_conversation_history settings self None).
  assert (forall s, returned
            (match complete (agent_openai services)
                            (general_messages text s)
                            (Some (7 # 10)%Q) (Some 500%Z) with
             | Ok r => Ok r
             | Raise _ => Ok "I'm sorry, I encountered an error. Please try again."
             end)) as G.
  { intros s. destruct (complete _ _ _ _); eexists; reflexivity. }
  destruct (complete (agent_openai services)
                     (analyze_intent_messages text history) _ _)
    as [reply|e] eqn:C.
  - split; [|split; [intros [e E]; discriminate|]].
    + destruct (Py.str_mem _ _) eqn:M; cbn [String.eqb]; [|apply G].
      destruct (String.eqb (Py.strip (Py.lower reply)) "create_post");
        [apply create_posts_returns|].
      destruct (String.eqb (Py.strip (Py.lower reply)) "edit_image");
        [eexists; reflexivity | apply G].
    + intros r E. injection E as <-. split; [|split].
      * intros ->. reflexivity.
      * intros ->. reflexivity.
      * intros N1 N2.
        destruct (Py.str_mem _ _) eqn:M; [|reflexivity].
        apply String.eqb_neq in N1, N2. now rewrite N1, N2.
  - split; [|split].
    + apply G.
    + intros _. reflexivity.
    + intros r E. discriminate.
Qed.

Lemma process_text_routes_on_intent_witness :
  process_text default_settings
    (SuperAgent_services default_settings (answering (Some " Edit_Image ")))
    (mkSuperAgent 1 []) "make it blue"
  = Ok _image_upload_required_response.
Proof.
  apply (proj1 (proj2 (proj2 (proj2 (process_text_routes_on_intent
           default_settings
           (SuperAgent_services default_settings (answering (Some " Edit_Image ")))
           (mkSuperAgent 1 []) "make it blue")) "Edit_Image" eq_refl))).
  reflexivity.
Defined.

(** X7: when every remote call fails, the router still answers:
    [process_text] returns the apology of the general conversation,
    [process_image] with a caption returns the "editing unavailable" text,
    and [create_posts] returns the "which platform?" text. *)
Theorem remote_outage_still_answers
    (settings : Settings) (remote : Client) (self : SuperAgent)
    (text image_path caption : string) :
  (forall request, raised (remote request)) ->
  let services := SuperAgent_services settings remote in
  process_text settings services self text
    = Ok "I'm sorry, I encountered an error. Please try again." /\
  (caption <> "" ->
   process_image settings services self image_path caption
     = Ok _image_editing_not_available_response) /\
  create_posts (post_creator services) text
               (_get_conversation_history settings self None)
    = Ok _no_platform_response.
Proof.
  intros Down. cbv zeta.
  assert (forall messages t k,
             raised (complete (OpenAIService_init settings remote) messages t k))
    as C.
  { intros messages t k. rewrite complete_unfold.
    destruct (Down (complete_request (OpenAIService_init settings remote)
                                     messages t k)) as [e E].
    cbn [client OpenAIService_init] in *. rewrite E. now exists e. }
  split; [|split].
  - unfold process_text, bind. cbn [agent_openai SuperAgent_services].
    rewrite analyze_intent_unfold.
    destruct (C (analyze_intent_messages text
                   (_get_conversation_history settings self None))
                (Some 0%Q) (Some 20%Z)) as [e ->].
    cbn [String.eqb Ascii.eqb Bool.eqb]. rewrite handle_general_unfold.
    destruct (C (general_messages text
                   (_get_conversation_history settings self None))
                (Some (7 # 10)%Q) (Some 500%Z)) as [e' ->].
    reflexivity.
  - intros NE. unfold process_image, bind.
    destruct caption as [|c caption]; [contradiction|]. cbn [str_truthy negb].
    cbn [agent_openai SuperAgent_services].
    rewrite analyze_image_intent_unfold.
    destruct (C [mkMessage "system" image_intent_system_prompt;
                 mkMessage "user" (String c caption)]
                (Some 0%Q) (Some 20%Z)) as [e ->].
    reflexivity.
  - unfold create_posts, bind. cbn [post_creator SuperAgent_services openai
                                     PostCreatorAgent_init].
    rewrite detect_platforms_unfold.
    destruct (C (detect_messages text) (Some 0%Q) (Some 50%Z)) as [e ->].
    reflexivity.
Qed.

Lemma remote_outage_still_answers_witness :
  process_text default_settings (SuperAgent_services default_settings failing)
               (mkSuperAgent 1 []) "Hello"
  = Ok "I'm sorry, I encountered an error. Please try again.".
Proof.
  apply (remote_outage_still_answers default_settings failing
           (mkSuperAgent 1 []) "Hello" "/tmp/a.jpg" "crop").
  intros request. exists (OpenAIError "API Error"). reflexivity.
Defined.

(** X8: [process_image] never raises.  Without a caption it asks for
    instructions and consults nothing; with a caption only the classifier
    reply "post_only" leads to generation, on the prompt "User uploaded an
    image and wants: <caption>", and every other outcome, a failed
    classification included, gets the "editing unavailable" text. *)
Theorem process_image_routes_on_intent
    (settings : Settings) (services : SuperAgentServices) (self : SuperAgent)
    (image_path caption : string) :
  let outcome :=
    complete (agent_openai services)
             [mkMessage "system" image_intent_system_prompt;
              mkMessage "user" caption] (Some 0%Q) (Some 20%Z) in
  returned (process_image settings services self image_path caption) /\
  (caption = "" ->
     process_image settings services self image_path caption
       = Ok _image_instructions_required_response) /\
  (caption <> "" ->
     (raised outcome ->
        process_image settings services self image_path caption
          = Ok _image_editing_not_available_response) /\
     (forall reply, outcome = Ok reply ->
        (intent_token reply = "post_only" ->
           process_image settings services self image_path caption
             = create_posts (post_creator services)
                 ("User uploaded an image and wants: " ++ caption)
                 (_get_conversation_history settings self None)) /\
        (intent_token reply <> "post_only" ->
           process_image settings services self image_path caption
             = Ok _image_editing_not_available_response))).
Proof.
  cbv zeta. unfold process_image, bind, intent_token.
  destruct caption as [|c caption].
  - split; [eexists; reflexivity|]. split; [reflexivity|].
    intros NE; contradiction.
  - cbn [str_truthy negb]. rewrite analyze_image_intent_unfold.
    destruct (complete (agent_openai services) _ _ _) as [reply|e] eqn:C.
    + split; [|split; [discriminate|]].
      * destruct (Py.str_mem _ _) eqn:M; [|eexists; reflexivity].
        destruct (String.eqb (Py.strip (Py.lower reply)) "edit_only");
          [eexists; reflexivity|].
        destruct (String.eqb (Py.strip (Py.lower reply)) "post_only");
          [apply create_posts_returns | eexists; reflexivity].
      * intros _. split; [intros [e E]; discriminate|].
        intros r E. injection E as <-. split.
        -- intros ->. reflexivity.
        -- intros N. destruct (Py.str_mem _ _) eqn:M; [|reflexivity].
           apply String.eqb_neq in N. rewrite N.
           destruct (String.eqb _ "edit_only"); reflexivity.
    + split; [eexists; reflexivity|]. split; [discriminate|].
      intros _. split; [reflexivity|]. intros r E; discriminate.
Qed.

Lemma process_image_routes_on_intent_witness :
  process_image default_settings
    (SuperAgent_services default_settings failing) (mkSuperAgent 1 [])
    "/tmp/telegram_image_a.jpg" ""
  = Ok _image_instructions_required_response /\
  process_image default_settings
    (SuperAgent_services default_settings (answering (Some "both")))
    (mkSuperAgent 1 []) "/tmp/telegram_image_a.jpg" "add a logo and post it"
  = Ok _image_editing_not_available_response.
Proof.
  split.
  - apply (proj1 (proj2 (process_image_routes_on_intent default_settings
             (SuperAgent_services default_settings failing) (mkSuperAgent 1 [])
             "/tmp/telegram_image_a.jpg" ""))).
    reflexivity.
  - refine (proj2 (proj2 (proj2 (proj2 (process_image_routes_on_intent
             default_settings
             (SuperAgent_services default_settings (answering (Some "both")))
             (mkSuperAgent 1 []) "/tmp/telegram_image_a.jpg"
             "add a logo and post it")) _) "both" eq_refl) _).
    + discriminate.
    + vm_compute; discriminate.
Defined.

(** ** History retrieval, whatever the timestamps *)

Lemma strongly_sorted_app {A} (R : A -> A -> Prop) (l1 l2 : list A) :
  StronglySorted R (l1 ++ l2) <->
  StronglySorted R l1 /\ StronglySorted R l2 /\
  (forall a b, In a l1 -> In b l2 -> R a b).
Proof.
  induction l1 as [|x l1 IH]; simpl.
  - split.
    + intros H; repeat split; [constructor | exact H | intros a b []].
    + intros (_ & H & _); exact H.
  - split.
    + intros H. apply StronglySorted_inv in H. destruct H as [S F].
      apply IH in S. destruct S as (S1 & S2 & C).
      apply Forall_app in F. destruct F as [F1 F2].
      repeat split; [constructor; assumption | exact S2 |].
      intros a b [<-|Ha] Hb; [|now apply C].
      rewrite Forall_forall in F2. now apply F2.
    + intros (S1 & S2 & C). apply StronglySorted_inv in S1.
      destruct S1 as [S1 F1]. constructor.
      * apply IH. repeat split; [exact S1 | exact S2 |].
        intros a b Ha Hb. apply C; auto.
      * apply Forall_app. split; [exact F1|].
        apply Forall_forall. intros b Hb. apply C; auto.
Qed.

Lemma strongly_sorted_rev {A} (R : A -> A -> Prop) (l : list A) :
  StronglySorted R l -> StronglySorted (fun a b => R b a) (rev l).
Proof.
  induction 1 as [|x l _ IH F]; simpl; [constructor|].
  apply strongly_sorted_app. repeat split.
  - exact IH.
  - repeat constructor.
  - intros a b Ha [<-|[]]. apply in_rev in Ha.
    rewrite Forall_forall in F. now apply F.
Qed.

Lemma insert_desc_permutation (m : Db.Message) (rows : list Db.Message) :
  Permutation (Db.insert_desc m rows) (m :: rows).
Proof.
  induction rows as [|r rows IH]; simpl; [reflexivity|].
  destruct (Db.created_at m <? Db.created_at r)%Z; [|reflexivity].
  rewrite IH. apply perm_swap.
Qed.

Lemma order_by_permutation (rows : list Db.Message) :
  Permutation (Db.order_by_created_at_desc rows) rows.
Proof.
  induction rows as [|m rows IH]; simpl; [reflexivity|].
  rewrite insert_desc_permutation. now constructor.
Qed.

Lemma insert_desc_descending (m : Db.Message) (rows : list Db.Message) :
  descending rows -> descending (Db.insert_desc m rows).
Proof.
  unfold descending. induction 1 as [|r rows S IH F]; simpl.
  - repeat constructor.
  - destruct (Db.created_at m <? Db.created_at r)%Z eqn:E.
    + apply Z.ltb_lt in E. constructor; [exact IH|].
      apply Forall_forall. intros x Hx.
      apply (Permutation_in _ (insert_desc_permutation m rows)) in Hx.
      destruct Hx as [<-|Hx]; [lia|].
      rewrite Forall_forall in F. now apply F.
    + apply Z.ltb_ge in E. constructor; [now constructor|].
      constructor; [exact E|].
      apply Forall_forall. intros x Hx.
      rewrite Forall_forall in F. specialize (F x Hx). lia.
Qed.

Lemma order_by_descending (rows : list Db.Message) :
  descending (Db.order_by_created_at_desc rows).
Proof.
  induction rows as [|m rows IH]; simpl; [constructor|].
  now apply insert_desc_descending.
Qed.

(** X9: whatever the timestamps, the history is a window on the rows of
    this conversation: it holds [min limit n] of its [n] rows and no row
    of another conversation, it is listed by non-decreasing creation time,
    and no row left out is newer than a row kept. *)
Theorem history_is_newest_window
    (settings : Settings) (self : SuperAgent) (limit_arg : option nat) :
  let rows := Db.filter_conversation (self_conversation_id self) (db self) in
  let window := match limit_arg with
                | None => MAX_CONVERSATION_HISTORY settings
                | Some n => n
                end in
  exists kept older,
    _get_conversation_history settings self limit_arg = map to_dict kept /\
    Permutation (older ++ kept) rows /\
    length kept = Nat.min window (length rows) /\
    ascending kept /\
    (forall o k, In o older -> In k kept ->
                 (Db.created_at o <= Db.created_at k)%Z) /\
    (forall k, In k kept ->
               Db.conversation_id k = self_conversation_id self /\
               In k (db self)).
Proof.
  cbv zeta.
  set (rows := Db.filter_conversation (self_conversation_id self) (db self)).
  set (window := match limit_arg with
                 | None => MAX_CONVERSATION_HISTORY settings
                 | Some n => n
                 end).
  set (sorted := Db.order_by_created_at_desc rows).
  pose proof (order_by_permutation rows) as P. fold sorted in P.
  pose proof (order_by_descending rows) as D. fold sorted in D.
  rewrite <- (firstn_skipn window sorted) in D.
  apply strongly_sorted_app in D. destruct D as (D1 & _ & C).
  assert (Permutation (skipn window sorted ++ rev (firstn window sorted)) rows)
    as PK.
  { apply Permutation_trans with (l' := sorted); [|exact P].
    apply Permutation_trans
      with (l' := (rev (firstn window sorted) ++ skipn window sorted)%list);
      [apply Permutation_app_comm|].
    apply Permutation_trans
      with (l' := (firstn window sorted ++ skipn window sorted)%list).
    - apply Permutation_app_tail. symmetry. apply Permutation_rev.
    - now rewrite firstn_skipn. }
  exists (rev (firstn window sorted)), (skipn window sorted).
  split; [reflexivity|]. split; [exact PK|].
  split; [now rewrite length_rev, length_firstn, (Permutation_length P)|].
  split; [apply (strongly_sorted_rev _ _ D1)|].
  split.
  - intros o k Ho Hk. apply in_rev in Hk. now apply C.
  - intros k Hk.
    assert (In k rows) as Hr.
    { apply (Permutation_in _ PK). apply in_or_app; now right. }
    unfold rows, Db.filter_conversation in Hr. apply filter_In in Hr.
    destruct Hr as [Hd E]. apply Z.eqb_eq in E. now split.
Qed.

Lemma history_is_newest_window_witness :
  exists kept older,
    _get_conversation_history default_settings
      (mkSuperAgent 1 three_messages) (Some 2) = map to_dict kept /\
    Permutation (older ++ kept) (Db.filter_conversation 1 three_messages) /\
    length kept = 2.
Proof.
  destruct (history_is_newest_window default_settings
              (mkSuperAgent 1 three_messages) (Some 2))
    as (kept & older & H & P & L & _).
  exists kept, older. split; [exact H|]. split; [exact P | exact L].
Defined.

(** X10: a message added to another conversation never changes the
    history of this one. *)
Theorem history_ignores_other_conversations
    (settings : Settings) (cid : Z) (table : Db.Table) (m : Db.Message)
    (limit_arg : option nat) :
  Db.conversation_id m <> cid ->
  _get_conversation_history settings (mkSuperAgent cid (Db.add table m)) limit_arg
  = _get_conversation_history settings (mkSuperAgent cid table) limit_arg.
Proof.
  intros N. unfold _get_conversation_history, Db.add, Db.filter_conversation.
  cbn [self_conversation_id db]. rewrite filter_app. cbn [filter].
  apply Z.eqb_neq in N. rewrite N, app_nil_r. reflexivity.
Qed.

Lemma history_ignores_other_conversations_witness :
  _get_conversation_history default_settings
    (mkSuperAgent 1 (Db.add three_messages (Db.mkRow 2 "user" "D" "text" 104)))
    None
  = _get_conversation_history default_settings (mkSuperAgent 1 three_messages) None.
Proof.
  apply (history_ignores_other_conversations default_settings 1 three_messages
           (Db.mkRow 2 "user" "D" "text" 104) None).
  discriminate.
Defined.

Lemma last_n_snoc {A} (n : nat) (l : list A) (x : A) :
  1 <= n -> Py.last_n n (l ++ [x]) = (Py.last_n (n - 1) l ++ [x])%list.
Proof.
  intros H. unfold Py.last_n. rewrite length_app, skipn_app. cbn [length].
  replace (length l + 1 - n) with (length l - (n - 1)) by lia.
  replace (length l - (n - 1) - length l) with 0 by lia.
  reflexivity.
Qed.

Lemma order_by_snoc_newest (rows : list Db.Message) (m : Db.Message) :
  (forall r, In r rows -> (Db.created_at r < Db.created_at m)%Z) ->
  Db.order_by_created_at_desc (rows ++ [m])
  = m :: Db.order_by_created_at_desc rows.
Proof.
  induction rows as [|r rows IH]; intros Newer; [reflexivity|].
  cbn [app Db.order_by_created_at_desc].
  rewrite IH by (intros x Hx; apply Newer; simpl; auto).
  cbn [Db.insert_desc].
  assert ((Db.created_at r <? Db.created_at m)%Z = true) as ->
    by (apply Z.ltb_lt, Newer; simpl; auto).
  reflexivity.
Qed.

Lemma newest_window_snoc (w : nat) (rows : list Db.Message) (m : Db.Message) :
  (forall r, In r rows -> (Db.created_at r < Db.created_at m)%Z) ->
  rev (Db.limit (S w) (Db.order_by_created_at_desc (rows ++ [m])))
  = (rev (Db.limit w (Db.order_by_created_at_desc rows)) ++ [m])%list.
Proof.
  intros Newer. rewrite (order_by_snoc_newest _ _ Newer).
  unfold Db.limit. reflexivity.
Qed.

Lemma filter_conversation_add (cid : Z) (table : Db.Table) (m : Db.Message) :
  Db.conversation_id m = cid ->
  Db.filter_conversation cid (Db.add table m)
  = (Db.filter_conversation cid table ++ [m])%list.
Proof.
  intros E. unfold Db.filter_conversation, Db.add. rewrite filter_app.
  cbn [filter]. apply Z.eqb_eq in E. now rewrite E.
Qed.

(** X11: appending a message that is newer than every row of its
    conversation shifts the window by one, whatever the order of the older
    rows: the new history is the history the old table gives with a limit
    smaller by one, followed by the new message. *)
Theorem history_after_newer_message
    (settings : Settings) (cid : Z) (table : Db.Table) (m : Db.Message)
    (limit_arg : option nat) :
  let window := match limit_arg with
                | None => MAX_CONVERSATION_HISTORY settings
                | Some n => n
                end in
  (forall r, In r (Db.filter_conversation cid table) ->
             (Db.created_at r < Db.created_at m)%Z) ->
  Db.conversation_id m = cid ->
  1 <= window ->
  _get_conversation_history settings (mkSuperAgent cid (Db.add table m)) limit_arg
  = (_get_conversation_history settings (mkSuperAgent cid table)
                               (Some (window - 1))
       ++ [to_dict m])%list.
Proof.
  cbv zeta. intros Newer E W.
  unfold _get_conversation_history. cbn [self_conversation_id db].
  rewrite (filter_conversation_add _ _ _ E).
  destruct (match limit_arg with
            | None => MAX_CONVERSATION_HISTORY settings
            | Some n => n
            end) as [|w]; [lia|].
  rewrite (newest_window_snoc _ _ _ Newer), map_app.
  cbn [map]. replace (S w - 1) with w by lia. reflexivity.
Qed.

Lemma history_after_newer_message_witness :
  _get_conversation_history default_settings
    (mkSuperAgent 1 (Db.add two_tied_messages (Db.mkRow 1 "user" "C" "text" 104)))
    (Some 2)
  = (_get_conversation_history default_settings
       (mkSuperAgent 1 two_tied_messages) (Some (2 - 1))
     ++ [mkMessage "user" "C"])%list.
Proof.
  apply (history_after_newer_message default_settings 1 two_tied_messages
           (Db.mkRow 1 "user" "C" "text" 104) (Some 2)).
  - simpl. intros r [<-|[<-|[]]]; simpl; lia.
  - reflexivity.
  - lia.
Defined.

(** ** The allow-list setting *)

Lemma check_authorization_value (settings : Settings) (ids : list Z) user_id :
  allowed_user_ids settings = Ok ids ->
  _check_authorization settings user_id
  = Ok (match ids with [] => true | _ => Py.int_mem user_id ids end).
Proof.
  intros P. unfold _check_authorization, is_user_whitelist_enabled, bind.
  rewrite P. destruct ids; reflexivity.
Qed.

Lemma check_authorization_raises (settings : Settings) (e : exn) user_id :
  allowed_user_ids settings = Raise e ->
  _check_authorization settings user_id = Raise e.
Proof.
  intros P. unfold _check_authorization, is_user_whitelist_enabled, bind.
  now rewrite P.
Qed.

Lemma map_result_raises {A B} (f : A -> result B) (l : list A) (a : A) :
  In a l -> raised (f a) -> raised (map_result f l).
Proof.
  induction l as [|x l IH]; intros HIn R; [contradiction|].
  simpl. unfold bind. destruct HIn as [->|HIn].
  - destruct R as [e ->]. now exists e.
  - destruct (f x) as [b|e]; [|now exists e].
    destruct (IH HIn R) as [e ->]. now exists e.
Qed.

(** X12: an allow-list setting that holds nothing but commas and
    whitespace switches the allow-list off: it parses to the empty list
    and every user is authorized. *)
Theorem blank_allow_list_admits_everyone (settings : Settings) :
  (forall piece,
     In piece (Py.split "," (TELEGRAM_ALLOWED_USER_IDS settings)) ->
     Py.strip piece = "") ->
  allowed_user_ids settings = Ok [] /\
  is_user_whitelist_enabled settings = Ok false /\
  forall user_id, _check_authorization settings user_id = Ok true.
Proof.
  intros Blank.
  assert (allowed_user_ids settings = Ok []) as P.
  { unfold allowed_user_ids.
    destruct (negb (str_truthy (Py.strip (TELEGRAM_ALLOWED_USER_IDS settings))));
      [reflexivity|].
    assert (filter (fun uid => str_truthy (Py.strip uid))
                   (Py.split "," (TELEGRAM_ALLOWED_USER_IDS settings)) = []) as ->;
      [|reflexivity].
    induction (Py.split "," (TELEGRAM_ALLOWED_USER_IDS settings)) as [|p ps IH];
      [reflexivity|].
    cbn [filter]. rewrite (Blank p) by (simpl; auto). cbn [str_truthy].
    apply IH. intros q Hq. apply Blank. simpl; auto. }
  split; [exact P|].
  split; [unfold is_user_whitelist_enabled, bind; now rewrite P|].
  intros user_id. now rewrite (check_authorization_value _ _ _ P).
Qed.

Lemma blank_allow_list_admits_everyone_witness :
  _check_authorization
    (mkSettings " , ,  " "gpt-4-turbo-preview" (7 # 10)%Q 800 10) 333
  = Ok true.
Proof.
  refine (proj2 (proj2 (blank_allow_list_admits_everyone
            (mkSettings " , ,  " "gpt-4-turbo-preview" (7 # 10)%Q 800 10) _))
            333%Z).
  intros piece H. vm_compute in H.
  repeat (destruct H as [<-|H]; [reflexivity|]). contradiction.
Defined.

(** X13: one entry of the allow-list setting that is not an integer
    literal makes the whole setting unusable: [allowed_user_ids] raises
    [ValueError], and so do the whitelist test, the authorization check of
    every user and every handler, before anything is stored or sent. *)
Theorem malformed_allow_list_raises_everywhere
    (settings : Settings) (entry : string) :
  Py.strip (TELEGRAM_ALLOWED_USER_IDS settings) <> "" ->
  In entry (allow_list_entries settings) ->
  Py.int (Py.strip entry) = None ->
  let error := ValueError "Invalid user ID in TELEGRAM_ALLOWED_USER_IDS" in
  allowed_user_ids settings = Raise error /\
  is_user_whitelist_enabled settings = Raise error /\
  (forall user_id, _check_authorization settings user_id = Raise error) /\
  (forall update, _start_command settings update = Raise error) /\
  (forall update, _help_command settings update = Raise error) /\
  (forall remote clock state update,
     _handle_text settings remote clock state update = Raise error) /\
  (forall remote download clock state update,
     _handle_image settings remote download clock state update = Raise error).
Proof.
  intros NB HIn Bad. cbv zeta.
  assert (allowed_user_ids settings
          = Raise (ValueError "Invalid user ID in TELEGRAM_ALLOWED_USER_IDS"))
    as P.
  { unfold allowed_user_ids.
    destruct (Py.strip (TELEGRAM_ALLOWED_USER_IDS settings)) as [|c s] eqn:E;
      [contradiction|].
    cbn [str_truthy negb]. unfold try_except.
    unfold allow_list_entries in HIn.
    destruct (map_result_raises
                (fun uid => match Py.int (Py.strip uid) with
                            | Some n => Ok n
                            | None => Raise (ValueError "invalid literal for int()")
                            end)
                _ entry HIn) as [e ->]; [|reflexivity].
    rewrite Bad. eexists; reflexivity. }
  pose proof (fun u => check_authorization_raises settings _ u P) as A.
  split; [exact P|].
  split; [unfold is_user_whitelist_enabled, bind; now rewrite P|].
  split; [exact A|].
  repeat split; intros.
  - unfold _start_command, bind. now rewrite A.
  - unfold _help_command, bind. now rewrite A.
  - unfold _handle_text, bind. now rewrite A.
  - unfold _handle_image, bind. now rewrite A.
Qed.

Lemma malformed_allow_list_raises_everywhere_witness :
  _check_authorization
    (mkSettings "111, abc" "gpt-4-turbo-preview" (7 # 10)%Q 800 10) 111
  = Raise (ValueError "Invalid user ID in TELEGRAM_ALLOWED_USER_IDS").
Proof.
  refine (proj1 (proj2 (proj2 (malformed_allow_list_raises_everywhere
            (mkSettings "111, abc" "gpt-4-turbo-preview" (7 # 10)%Q 800 10)
            " abc" _ _ _))) 111%Z).
  - vm_compute; discriminate.
  - vm_compute; auto.
  - reflexivity.
Defined.

(** ** The conversation store *)

Lemma find_snoc_none {A} (f : A -> bool) (l : list A) (x : A) :
  find f l = None -> find f (l ++ [x]) = if f x then Some x else None.
Proof.
  induction l as [|a l IH]; simpl; [reflexivity|].
  destruct (f a); [discriminate | exact IH].
Qed.

Lemma next_id_above (rows : list Store.Conversation) (c : Store.Conversation) :
  In c rows -> (Store.id c < Store.next_id rows)%Z.
Proof.
  unfold Store.next_id. induction rows as [|r rows IH]; [contradiction|].
  intros [->|H]; cbn [map fold_right]; [lia|]. specialize (IH H). lia.
Qed.

Lemma first_conversation_key (rows : list Store.Conversation) user_id chat_id c :
  Store.first_conversation rows user_id chat_id = Some c ->
  In c rows /\ conversation_key c = (user_id, chat_id).
Proof.
  unfold Store.first_conversation. intros H. apply find_some in H.
  destruct H as [HIn E]. apply andb_true_iff in E. destruct E as [E1 E2].
  apply Z.eqb_eq in E1, E2. unfold conversation_key. now rewrite E1, E2.
Qed.

(** X14: [_get_or_create_conversation] returns a conversation of the store
    whose key is the (user, chat) pair asked for, touches no message, adds
    at most one row, and is stable: asking again, at any later time, gives
    the same conversation and changes nothing. *)
Theorem get_or_create_conversation_is_stable
    (state : Store.State) (now user_id chat_id : Z) :
  let state' := fst (_get_or_create_conversation state now user_id chat_id) in
  let conversation :=
    snd (_get_or_create_conversation state now user_id chat_id) in
  conversation_key conversation = (user_id, chat_id) /\
  In conversation (Store.conversations state') /\
  Store.messages state' = Store.messages state /\
  (Store.conversations state' = Store.conversations state \/
   Store.conversations state'
     = (Store.conversations state ++ [conversation])%list) /\
  (forall later,
     _get_or_create_conversation state' later user_id chat_id
       = (state', conversation)).
Proof.
  cbv zeta. unfold _get_or_create_conversation.
  destruct (Store.first_conversation (Store.conversations state) user_id chat_id)
    as [c|] eqn:F; cbn [fst snd].
  - destruct (first_conversation_key _ _ _ _ F) as [HIn K].
    repeat split; auto. intros later. now rewrite F.
  - cbn [Store.conversations Store.messages].
    split; [reflexivity|].
    split; [apply in_or_app; right; simpl; auto|].
    split; [reflexivity|].
    split; [now right|].
    intros later. unfold Store.first_conversation in *.
    rewrite (find_snoc_none _ _ _ F).
    cbn [Store.telegram_user_id Store.telegram_chat_id].
    now rewrite !Z.eqb_refl.
Qed.

(** X15: [_get_or_create_conversation] keeps the conversations table well
    keyed: if no (user, chat) pair and no id occurs twice before the call,
    none does after it. *)
Theorem get_or_create_conversation_keeps_keys_unique
    (state : Store.State) (now user_id chat_id : Z) :
  well_keyed (Store.conversations state) ->
  well_keyed
    (Store.conversations
       (fst (_get_or_create_conversation state now user_id chat_id))).
Proof.
  intros [K I]. unfold _get_or_create_conversation.
  destruct (Store.first_conversation (Store.conversations state) user_id chat_id)
    as [c|] eqn:F; cbn [fst]; [now split|].
  cbn [Store.conversations]. unfold well_keyed. rewrite !map_app. split.
  - apply NoDup_app; [exact K | repeat constructor; intros [] |].
    intros k Hk [<-|[]]. apply in_map_iff in Hk.
    destruct Hk as (r & Kr & Hr).
    unfold Store.first_conversation in F.
    pose proof (find_none _ _ F r Hr) as N. cbn beta in N.
    unfold conversation_key in Kr. cbn [Store.telegram_user_id
      Store.telegram_chat_id] in Kr. injection Kr as E1 E2.
    rewrite E1, E2, !Z.eqb_refl in N. discriminate.
  - apply NoDup_app; [exact I | repeat constructor; intros [] |].
    intros i Hi [<-|[]]. apply in_map_iff in Hi.
    destruct Hi as (r & Ir & Hr). cbn [Store.id] in Ir.
    pose proof (next_id_above _ _ Hr). lia.
Qed.

Lemma get_or_create_conversation_keeps_keys_unique_witness :
  well_keyed
    (Store.conversations
       (fst (_get_or_create_conversation
               (Store.mkState [Store.mkConversation 4 7 9 100] []) 200 7 10))).
Proof.
  apply (get_or_create_conversation_keeps_keys_unique
           (Store.mkState [Store.mkConversation 4 7 9 100] []) 200 7 10).
  split; repeat constructor; simpl; intros [].
Defined.

(** ** The handlers *)

Lemma handle_general_returns (openai : OpenAIService) text history :
  returned (_handle_general_conversation openai text history).
Proof.
  rewrite handle_general_unfold.
  destruct (complete openai _ _ _); eexists; reflexivity.
Qed.

Lemma process_text_returns settings services self text :
  returned (process_text settings services self text).
Proof.
  unfold process_text, bind. rewrite analyze_intent_unfold.
  pose proof (handle_general_returns (agent_openai services) text
                (_get_conversation_history settings self None)) as G.
  destruct (complete (agent_openai services)
                     (analyze_intent_messages text _) _ _) as [reply|e].
  - destruct (Py.str_mem _ _); cbn [String.eqb]; [|exact G].
    destruct (String.eqb _ "create_post"); [apply create_posts_returns|].
    destruct (String.eqb _ "edit_image"); [eexists; reflexivity | exact G].
  - exact G.
Qed.

Lemma process_image_returns settings services self image_path caption :
  returned (process_image settings services self image_path caption).
Proof.
  unfold process_image, bind.
  destruct (negb (str_truthy caption)); [eexists; reflexivity|].
  rewrite analyze_image_intent_unfold.
  destruct (complete (agent_openai services) _ _ _) as [reply|e];
    [|eexists; reflexivity].
  destruct (Py.str_mem _ _); [|eexists; reflexivity].
  destruct (String.eqb _ "edit_only"); [eexists; reflexivity|].
  destruct (String.eqb _ "post_only");
    [apply create_posts_returns | eexists; reflexivity].
Qed.

Lemma get_or_create_messages (state : Store.State) now user_id chat_id :
  Store.messages (fst (_get_or_create_conversation state now user_id chat_id))
  = Store.messages state.
Proof.
  unfold _get_or_create_conversation.
  destruct (Store.first_conversation _ _ _); reflexivity.
Qed.

(** X16: a user outside a non-empty allow-list gets the refusal and
    nothing else from every handler: no typing action, no conversation, no
    stored message, no call to the model or to the file download. *)
Theorem handlers_refuse_unlisted_users
    (settings : Settings) (ids : list Z) (update : Update) :
  allowed_user_ids settings = Ok ids ->
  ids <> [] ->
  ~ In (effective_user_id update) ids ->
  _start_command settings update = Ok [unauthorized_reply] /\
  _help_command settings update = Ok [unauthorized_reply] /\
  (forall remote clock state,
     _handle_text settings remote clock state update
       = Ok (state, [unauthorized_reply])) /\
  (forall remote download clock state,
     _handle_image settings remote download clock state update
       = Ok (state, [unauthorized_reply])).
Proof.
  intros P NE Out.
  assert (_check_authorization settings (effective_user_id update) = Ok false)
    as A.
  { rewrite (check_authorization_value _ _ _ P).
    destruct ids as [|i ids]; [contradiction|].
    destruct (Py.int_mem (effective_user_id update) (i :: ids)) eqn:M;
      [|reflexivity].
    apply int_mem_In in M. contradiction. }
  split; [unfold _start_command, bind; now rewrite A|].
  split; [unfold _help_command, bind; now rewrite A|].
  split; intros.
  - unfold _handle_text, bind. now rewrite A.
  - unfold _handle_image, bind. now rewrite A.
Qed.

Lemma handlers_refuse_unlisted_users_witness :
  _handle_text (mkSettings "111, 222" "gpt-4-turbo-preview" (7 # 10)%Q 800 10)
               posting_x (mkClock 1 2 3) empty_store
               (mkUpdate 333 5 "hello" None [])
  = Ok (empty_store, [unauthorized_reply]).
Proof.
  refine (proj1 (proj2 (proj2 (handlers_refuse_unlisted_users
            (mkSettings "111, 222" "gpt-4-turbo-preview" (7 # 10)%Q 800 10)
            [111%Z; 222%Z] (mkUpdate 333 5 "hello" None []) eq_refl _ _)))
            posting_x (mkClock 1 2 3) empty_store).
  - discriminate.
  - simpl. intros [H|[H|[]]]; discriminate.
Defined.





Lemma complete_agrees (settings : Settings) (remote remote' : Client)
    (messages : list MessageDict) (t : option Q) (k : option Z) :
  (forall request,
     req_messages request = messages -> remote request = remote' request) ->
  complete (OpenAIService_init settings remote) messages t k
  = complete (OpenAIService_init settings remote') messages t k.
Proof.
  intros Agree. rewrite !complete_unfold. cbn [client OpenAIService_init].
  rewrite (Agree (complete_request (OpenAIService_init settings remote)
                                   messages t k) eq_refl).
  reflexivity.
Qed.

Lemma init_agents_agree (service service' : OpenAIService)
    (prompt : string) (history : list MessageDict) (key : string) :
  (forall system_prompt k,
     complete service (agent_messages system_prompt prompt history)
              (Some (7 # 10)%Q) (Some k)
     = complete service' (agent_messages system_prompt prompt history)
                (Some (7 # 10)%Q) (Some k)) ->
  match dict_get (agents (PostCreatorAgent_init service)) key,
        dict_get (agents (PostCreatorAgent_init service')) key with
  | Some agent, Some agent' =>
      create_post agent prompt history = create_post agent' prompt history
  | None, None => True
  | _, _ => False
  end.
Proof.
  intros C. cbn [agents PostCreatorAgent_init dict_get].
  repeat (match goal with
          | |- context [String.eqb ?a key] => destruct (String.eqb a key)
          end);
    try exact I;
    cbn [create_post XAgent.new LinkedInAgent.new InstagramAgent.new
         YouTubeAgent.new SchoolAgent.new];
    unfold XAgent.create_post, LinkedInAgent.create_post,
      InstagramAgent.create_post, YouTubeAgent.create_post,
      SchoolAgent.create_post;
    rewrite C; reflexivity.
Qed.

Lemma recognized_tasks_agree (self self' : PostCreatorAgent)
    (prompt : string) (history : list MessageDict) (platforms : list string) :
  (forall key,
     match dict_get (agents self) key, dict_get (agents self') key with
     | Some agent, Some agent' =>
         create_post agent prompt history = create_post agent' prompt history
     | None, None => True
     | _, _ => False
     end) ->
  collect_tasks self prompt history platforms
  = collect_tasks self' prompt history platforms.
Proof.
  intros A. rewrite !collect_tasks_recognized.
  induction platforms as [|p ps IH]; [reflexivity|].
  unfold recognized. cbn [flat_map].
  fold (recognized self ps). fold (recognized self' ps).
  specialize (A (Py.lower p)).
  destruct (dict_get (agents self) (Py.lower p)) as [agent|],
           (dict_get (agents self') (Py.lower p)) as [agent'|];
    try contradiction; cbn [app map]; injection IH as IH1 IH2.
  - unfold task_of at 1 3. cbn [fst snd]. now rewrite A, IH1, IH2.
  - now rewrite IH1, IH2.
Qed.

Lemma ends_with_live_twice (system_prompt text : string) (n : nat)
    (earlier : list MessageDict) :
  1 <= n ->
  exists head,
    ([mkMessage "system" system_prompt]
       ++ Py.last_n n (earlier ++ [mkMessage "user" text])
       ++ [mkMessage "user" text])%list
    = (head ++ [mkMessage "user" text; mkMessage "user" text])%list.
Proof.
  intros N. rewrite (last_n_snoc n earlier _ N).
  exists ([mkMessage "system" system_prompt] ++ Py.last_n (n - 1) earlier)%list.
  now rewrite <- !app_assoc.
Qed.

Lemma process_text_agrees (settings : Settings) (remote remote' : Client)
    (self : SuperAgent) (text : string) (earlier : list MessageDict) :
  _get_conversation_history settings self None
    = (earlier ++ [mkMessage "user" text])%list ->
  (forall request, consulted text request -> remote request = remote' request) ->
  process_text settings (SuperAgent_services settings remote) self text
  = process_text settings (SuperAgent_services settings remote') self text.
Proof.
  intros H Agree.
  assert (forall system_prompt n t k,
             1 <= n ->
             complete (OpenAIService_init settings remote)
               ([mkMessage "system" system_prompt]
                  ++ Py.last_n n (earlier ++ [mkMessage "user" text])
                  ++ [mkMessage "user" text])%list t k
             = complete (OpenAIService_init settings remote')
                 ([mkMessage "system" system_prompt]
                    ++ Py.last_n n (earlier ++ [mkMessage "user" text])
                    ++ [mkMessage "user" text])%list t k) as C.
  { intros system_prompt n t k N. apply complete_agrees.
    intros request R. apply Agree. right. rewrite R.
    now apply ends_with_live_twice. }
  unfold process_text, bind. rewrite H.
  cbn [agent_openai post_creator SuperAgent_services].
  rewrite !analyze_intent_unfold. unfold analyze_intent_messages.
  rewrite (C intent_system_prompt 3 (Some 0%Q) (Some 20%Z)) by lia.
  assert (_handle_general_conversation (OpenAIService_init settings remote) text
            (earlier ++ [mkMessage "user" text])
          = _handle_general_conversation (OpenAIService_init settings remote')
              text (earlier ++ [mkMessage "user" text])) as G.
  { rewrite !handle_general_unfold. unfold general_messages.
    now rewrite (C general_system_prompt 5 (Some (7 # 10)%Q) (Some 500%Z))
      by lia. }
  assert (create_posts
            (PostCreatorAgent_init (OpenAIService_init settings remote)) text
            (earlier ++ [mkMessage "user" text])
          = create_posts
              (PostCreatorAgent_init (OpenAIService_init settings remote')) text
              (earlier ++ [mkMessage "user" text])) as P.
  { unfold create_posts, bind. cbn [openai PostCreatorAgent_init].
    rewrite !detect_platforms_unfold.
    rewrite (complete_agrees settings remote remote' (detect_messages text))
      by (intros request R; apply Agree; now left).
    destruct (complete _ (detect_messages text) _ _) as [reply|e];
      [|reflexivity].
    destruct (String.eqb _ "none"); [reflexivity|].
    f_equal. unfold create_posts_for.
    rewrite (recognized_tasks_agree
               (PostCreatorAgent_init (OpenAIService_init settings remote))
               (PostCreatorAgent_init (OpenAIService_init settings remote')));
      [reflexivity|].
    intros key. apply init_agents_agree.
    intros system_prompt k. unfold agent_messages.
    apply (C system_prompt 3). lia. }
  rewrite G, P. reflexivity.
Qed.

(** X19: [_handle_text] stores the user's text before [process_text] reads
    the history.  When that row is newer than the rows of its conversation
    and the window is at least 1, the history ends with the live text, so
    the requests built from the history and the live text (the intent
    classification, every generator's, the general conversation's) end
    with the live text twice; and the results of [process_text] and of
    [_handle_text] depend on the remote endpoint only through the
    platform-detection request and the requests that end so. *)
Theorem live_message_is_sent_twice
    (settings : Settings) (clock : Clock) (state : Store.State)
    (update : Update) (remote remote' : Client) :
  let text := message_text update in
  let live := mkMessage "user" text in
  let cid :=
    Store.id (snd (_get_or_create_conversation state (conversation_time clock)
                     (effective_user_id update) (effective_chat_id update))) in
  let agent :=
    mkSuperAgent cid
      (Store.messages state
         ++ [Db.mkRow cid "user" text "text" (user_message_time clock)])%list in
  let history := _get_conversation_history settings agent None in
  (forall r, In r (Db.filter_conversation cid (Store.messages state)) ->
             (Db.created_at r < user_message_time clock)%Z) ->
  1 <= MAX_CONVERSATION_HISTORY settings ->
  (exists earlier, history = (earlier ++ [live])%list) /\
  (exists head,
     analyze_intent_messages text history = (head ++ [live; live])%list) /\
  (forall system_prompt, exists head,
     agent_messages system_prompt text history = (head ++ [live; live])%list) /\
  (exists head,
     general_messages text history = (head ++ [live; live])%list) /\
  ((forall request, consulted text request -> remote request = remote' request) ->
   process_text settings (SuperAgent_services settings remote) agent text
   = process_text settings (SuperAgent_services settings remote') agent text /\
   _handle_text settings remote clock state update
   = _handle_text settings remote' clock state update).
Proof.
  cbv zeta. intros Newer W.
  pose proof (get_or_create_messages state (conversation_time clock)
                (effective_user_id update) (effective_chat_id update)) as M.
  destruct (_get_or_create_conversation state (conversation_time clock)
              (effective_user_id update) (effective_chat_id update))
    as [state1 conversation] eqn:F.
  cbn [fst snd] in *.
  set (cid := Store.id conversation) in *.
  set (text := message_text update).
  set (m := Db.mkRow cid "user" text "text" (user_message_time clock)).
  assert (_get_conversation_history settings
            (mkSuperAgent cid (Store.messages state ++ [m])%list) None
          = (_get_conversation_history settings
               (mkSuperAgent cid (Store.messages state))
               (Some (MAX_CONVERSATION_HISTORY settings - 1))
             ++ [mkMessage "user" text])%list) as H.
  { unfold _get_conversation_history. cbn [self_conversation_id db].
    change (Store.messages state ++ [m])%list with (Db.add (Store.messages state) m).
    rewrite (filter_conversation_add cid _ m eq_refl).
    destruct (MAX_CONVERSATION_HISTORY settings) as [|w]; [lia|].
    rewrite (newest_window_snoc w _ m Newer), map_app.
    cbn [map]. replace (S w - 1) with w by lia. reflexivity. }
  set (earlier := _get_conversation_history settings
                    (mkSuperAgent cid (Store.messages state))
                    (Some (MAX_CONVERSATION_HISTORY settings - 1))) in H.
  split; [now exists earlier|]. rewrite H.
  split; [apply (ends_with_live_twice intent_system_prompt text 3); lia|].
  split; [intros system_prompt;
          apply (ends_with_live_twice system_prompt text 3); lia|].
  split; [apply (ends_with_live_twice general_system_prompt text 5); lia|].
  intros Agree.
  pose proof (process_text_agrees settings remote remote'
                (mkSuperAgent cid (Store.messages state ++ [m])%list)
                text earlier H Agree) as P.
  split; [exact P|].
  unfold _handle_text, bind.
  destruct (_check_authorization settings (effective_user_id update))
    as [[|]|e]; cbn [negb]; try reflexivity.
  rewrite F. unfold _save_message, Db.add.
  cbn [Store.messages Store.conversations]. rewrite M.
  fold cid. fold text. fold m. rewrite P. reflexivity.
Qed.

Lemma live_message_is_sent_twice_witness :
  exists head,
    analyze_intent_messages "make a tweet"
      (_get_conversation_history default_settings
         (mkSuperAgent 1
            (two_tied_messages
               ++ [Db.mkRow 1 "user" "make a tweet" "text" 104])%list)
         None)
    = (head ++ [mkMessage "user" "make a tweet";
                mkMessage "user" "make a tweet"])%list.
Proof.
  refine (proj1 (proj2 (live_message_is_sent_twice default_settings
            (mkClock 101 104 105)
            (Store.mkState [Store.mkConversation 1 7 9 90] two_tied_messages)
            (mkUpdate 7 9 "make a tweet" None []) posting_x posting_x _ _))).
  - simpl. intros r [<-|[<-|[]]]; simpl; lia.
  - simpl; lia.
Defined.

(** ** More on requests, generators and replies *)

Lemma last_n_suffix {A} (n : nat) (l : list A) :
  l = (firstn (length l - n) l ++ Py.last_n n l)%list /\
  length (Py.last_n n l) = Nat.min n (length l).
Proof.
  unfold Py.last_n. split; [symmetry; apply firstn_skipn|].
  rewrite length_skipn. lia.
Qed.

(** X20: no request carries the whole history: the classifier and every
    generator send the system prompt, the last three turns (all of them
    when there are fewer) and the live text, in that order; the general
    conversation sends the last five. *)
Theorem requests_carry_bounded_history
    (system_prompt text : string) (history : list MessageDict) :
  (exists dropped turns,
     history = (dropped ++ turns)%list /\
     length turns = Nat.min 3 (length history) /\
     analyze_intent_messages text history
       = (mkMessage "system" intent_system_prompt
            :: turns ++ [mkMessage "user" text])%list /\
     agent_messages system_prompt text history
       = (mkMessage "system" system_prompt
            :: turns ++ [mkMessage "user" text])%list /\
     length (agent_messages system_prompt text history) <= 5) /\
  (exists dropped turns,
     history = (dropped ++ turns)%list /\
     length turns = Nat.min 5 (length history) /\
     general_messages text history
       = (mkMessage "system" general_system_prompt
            :: turns ++ [mkMessage "user" text])%list /\
     length (general_messages text history) <= 7).
Proof.
  split.
  - destruct (last_n_suffix 3 history) as [S L].
    exists (firstn (length history - 3) history), (Py.last_n 3 history).
    split; [exact S|]. split; [exact L|].
    split; [reflexivity|]. split; [reflexivity|].
    unfold agent_messages. cbn [app length].
    rewrite length_app, L. cbn [length]. lia.
  - destruct (last_n_suffix 5 history) as [S L].
    exists (firstn (length history - 5) history), (Py.last_n 5 history).
    split; [exact S|]. split; [exact L|]. split; [reflexivity|].
    unfold general_messages. cbn [app length].
    rewrite length_app, L. cbn [length]. lia.
Qed.

(** X21: every post the School generator returns contains the marker
    "Love an automation", whatever the completion was. *)
Theorem school_post_always_signed
    (openai : OpenAIService) (prompt : string) (history : list MessageDict)
    (post : string) :
  SchoolAgent.create_post openai prompt history = Ok post ->
  Py.str_in "Love an automation" post = true.
Proof.
  unfold SchoolAgent.create_post, try_except, bind.
  destruct (complete openai _ _ _) as [completion|e]; [|discriminate].
  intros H. injection H as <-.
  unfold SchoolAgent.add_signature, SchoolAgent.signature_marker.
  destruct (Py.str_in "Love an automation" completion) eqn:E; cbn [negb].
  - exact E.
  - apply str_in_append_r. reflexivity.
Qed.

Lemma school_post_always_signed_witness :
  Py.str_in "Love an automation"
    (SchoolAgent.add_signature "Hey everyone!") = true.
Proof.
  apply (school_post_always_signed
           (OpenAIService_init default_settings (answering (Some "Hey everyone!")))
           "Create a post" [] (SchoolAgent.add_signature "Hey everyone!")).
  reflexivity.
Defined.

(** X22: a non-empty detected list none of whose entries has an agent is
    not reported: no generator runs and the reply is the bare header,
    neither an error marker nor the "which platform?" text. *)
Theorem unknown_platforms_leave_the_bare_header
    (self : PostCreatorAgent) (prompt : string) (history : list MessageDict)
    (platforms : list string) :
  platforms <> [] ->
  (forall p, In p platforms -> dict_get (agents self) (Py.lower p) = None) ->
  fst (collect_tasks self prompt history platforms) = [] /\
  create_posts_for self prompt history platforms = header.
Proof.
  intros NE Unknown.
  assert (recognized self platforms = []) as R.
  { clear NE. induction platforms as [|p ps IH]; [reflexivity|].
    unfold recognized. cbn [flat_map]. fold (recognized self ps).
    rewrite (Unknown p) by (simpl; auto).
    apply IH. intros q Hq. apply Unknown. simpl; auto. }
  split.
  - rewrite collect_tasks_recognized, R. reflexivity.
  - rewrite create_posts_for_blocks by exact NE. rewrite R. reflexivity.
Qed.

Lemma unknown_platforms_leave_the_bare_header_witness :
  create_posts_for
    (PostCreatorAgent_init (OpenAIService_init default_settings failing))
    "post it" [] ["tiktok"; "mastodon"] = header.
Proof.
  apply (unknown_platforms_leave_the_bare_header
           (PostCreatorAgent_init (OpenAIService_init default_settings failing))
           "post it" [] ["tiktok"; "mastodon"]).
  - discriminate.
  - intros p [<-|[<-|[]]]; reflexivity.
Defined.

(** X23: the handlers only ever append to the store: when [_handle_text]
    or [_handle_image] returns, the messages it leaves extend the messages
    it found, and the conversations are those it found, or those plus the
    conversation of the sender's (user, chat) pair. *)
Theorem handlers_only_append
    (settings : Settings) (remote : Client)
    (download : string -> string -> result unit) (clock : Clock)
    (state state' : Store.State) (update : Update) (sent : list Outgoing) :
  _handle_text settings remote clock state update = Ok (state', sent) \/
  _handle_image settings remote download clock state update = Ok (state', sent) ->
  grows_from state state' (conversation_time clock)
             (effective_user_id update) (effective_chat_id update).
Proof.
  assert (grows_from state state (conversation_time clock)
            (effective_user_id update) (effective_chat_id update)) as Same.
  { split; [exists []; now rewrite app_nil_r | now left]. }
  pose proof (get_or_create_messages state (conversation_time clock)
                (effective_user_id update) (effective_chat_id update)) as M.
  unfold grows_from, _handle_text, _handle_image, bind.
  destruct (_check_authorization settings (effective_user_id update))
    as [[|]|e]; cbn [negb].
  2: { intros [H|H]; injection H as <- _; exact Same. }
  2: { intros [H|H]; discriminate. }
  destruct (_get_or_create_conversation state (conversation_time clock)
              (effective_user_id update) (effective_chat_id update))
    as [state1 conversation].
  cbn [fst snd] in *. unfold _save_message, Db.add.
  cbn [Store.messages Store.conversations]. rewrite M.
  intros [H|H].
  - destruct (process_text _ _ _ _) as [response|e];
      injection H as <- _; cbn [Store.messages Store.conversations];
      (split; [|now right]).
    + rewrite <- app_assoc. eexists; reflexivity.
    + eexists; reflexivity.
  - destruct (match last_photo (message_photo update) with
              | Ok a => _
              | Raise e => _
              end) as [image_path|e].
    + destruct (process_image _ _ _ _ _) as [response|e];
        injection H as <- _; cbn [Store.messages Store.conversations];
        (split; [|now right]).
      * rewrite <- app_assoc. eexists; reflexivity.
      * eexists; reflexivity.
    + injection H as <- _.
      split; [exists []; now rewrite app_nil_r | now left].
Qed.

Lemma handlers_only_append_witness :
  grows_from empty_store
    (Store.mkState
       [Store.mkConversation 1 7 9 1]
       [Db.mkRow 1 "user" "Hello" "text" 2;
        Db.mkRow 1 "assistant"
                 "I'm sorry, I encountered an error. Please try again." "text" 3])
    1 7 9.
Proof.
  apply (handlers_only_append default_settings failing (fun _ _ => Ok tt)
           (mkClock 1 2 3) empty_store
           (Store.mkState
              [Store.mkConversation 1 7 9 1]
              [Db.mkRow 1 "user" "Hello" "text" 2;
               Db.mkRow 1 "assistant"
                        "I'm sorry, I encountered an error. Please try again."
                        "text" 3])
           (mkUpdate 7 9 "Hello" None [])
           [SendAction "typing";
            ReplyText "I'm sorry, I encountered an error. Please try again."
                      (Some "Markdown")]).
  left. reflexivity.
Defined.

(** X24: a handler that returns has sent exactly one reply, whether the
    user was refused, served, or met a failure. *)
Theorem handlers_reply_exactly_once
    (settings : Settings) (remote : Client)
    (download : string -> string -> result unit) (clock : Clock)
    (state state' : Store.State) (update : Update) (sent : list Outgoing) :
  _start_command settings update = Ok sent \/
  _help_command settings update = Ok sent \/
  _handle_text settings remote clock state update = Ok (state', sent) \/
  _handle_image settings remote download clock state update = Ok (state', sent) ->
  length (filter is_reply sent) = 1.
Proof.
  unfold _start_command, _help_command, _handle_text, _handle_image, bind.
  destruct (_check_authorization settings (effective_user_id update))
    as [[|]|e]; cbn [negb].
  2: { intros [H|[H|[H|H]]]; injection H; intros; subst; reflexivity. }
  2: { intros [H|[H|[H|H]]]; discriminate. }
  destruct (_get_or_create_conversation state (conversation_time clock)
              (effective_user_id update) (effective_chat_id update))
    as [state1 conversation].
  intros [H|[H|[H|H]]].
  - injection H as <-. reflexivity.
  - injection H as <-. reflexivity.
  - destruct (process_text _ _ _ _) as [response|e];
      injection H as _ <-; reflexivity.
  - destruct (match last_photo (message_photo update) with
              | Ok a => _
              | Raise e => _
              end) as [image_path|e].
    + destruct (process_image _ _ _ _ _) as [response|e];
        injection H as _ <-; reflexivity.
    + injection H as _ <-. reflexivity.
Qed.

Lemma handlers_reply_exactly_once_witness :
  length (filter is_reply [unauthorized_reply]) = 1.
Proof.
  apply (handlers_reply_exactly_once
           (mkSettings "111" "gpt-4-turbo-preview" (7 # 10)%Q 800 10)
           failing (fun _ _ => Ok tt) (mkClock 1 2 3) empty_store empty_store
           (mkUpdate 333 5 "hello" None []) [unauthorized_reply]).
  left. reflexivity.
Defined.
